(** * bilibili_api.user: a shallow embedding and its specification

    The module [bilibili_api/user.py] is a binding layer: every operation
    assembles a parameter dictionary, checks the credential, and hands a
    request to the gateway [request].  The embedding keeps that shape:

    - Python values of JSON shape are the inductive type [pyval];
      dictionaries are association lists in insertion order;
    - exceptions are the inductive type [exn], a computation returns
      [Ok v] or [Raise e];
    - the network is an explicit trace of events, threaded through a
      state-and-exception monad [M];
    - everything that lives outside [user.py] (the gateway, the endpoint
      registry, [httpx.get], [json.loads], [str]) is an interface, the
      class [Externals]. *)

From Stdlib Require Import String Ascii List ZArith Bool Lia.
From Stdlib Require Import Floats.PrimFloat.
From Stdlib Require DecimalString.
Import ListNotations.

Set Warnings "-register-all".

Local Open Scope string_scope.
Local Open Scope Z_scope.
Local Open Scope list_scope.

(** ** Python values *)

(** The values that flow through the module: what [json.loads] and the
    gateway produce, and what the parameter dictionaries hold.  A [dict]
    keeps its keys in insertion order, as Python's does. *)
Inductive pyval : Type :=
| PNone
| PBool (b : bool)
| PInt (n : Z)
| PFloat (f : float)
| PStr (s : string)
| PList (l : list pyval)
| PDict (d : list (string * pyval)).

Definition dict : Type := list (string * pyval).

(** [d.get(k)] as an option: the first binding of [k]. *)
Fixpoint dict_get (d : dict) (k : string) : option pyval :=
  match d with
  | [] => None
  | (k', v) :: d' => if String.eqb k k' then Some v else dict_get d' k
  end.

(** [d[k] = v]: an existing key keeps its position, a new one goes last. *)
Fixpoint dict_set (d : dict) (k : string) (v : pyval) : dict :=
  match d with
  | [] => [(k, v)]
  | (k', v') :: d' =>
      if String.eqb k k' then (k, v) :: d' else (k', v') :: dict_set d' k v
  end.

Definition dict_keys (d : dict) : list string := map fst d.

(** ** Exceptions and results *)

(** The three identity tokens a credential may hold. *)
Inductive token : Type := SESSDATA | BILI_JCT | DEDEUSERID.

Inductive exn : Type :=
| CredentialNoTokenException (t : token)
| ResponseCodeException (code : Z) (msg : string)
| JSONDecodeError (doc : string)
| KeyError (key : string)
| TypeError
| AssertionError
| OtherException (name : string).

Inductive result (A : Type) : Type :=
| Ok (a : A)
| Raise (e : exn).
Arguments Ok {A} a.
Arguments Raise {A} e.

(** ** Credential *)

Module Credential.

(** Modelled from the spec: [utils/Credential.py] is not part of the
    sources at hand.  The spec describes the credential as a bundle of
    identity tokens (session id, cross-site token, user id) with presence
    checks, each raising a typed precondition error when the token is
    absent; [Credential()] holds no token. *)
Record t : Type := mk {
  sessdata : option string;
  bili_jct : option string;
  dedeuserid : option string
}.

(** [Credential()] *)
Definition new : t := mk None None None.

(** [x is not None] *)
Definition is_not_None (x : option string) : bool :=
  match x with Some _ => true | None => false end.

Definition has (tok : token) (c : t) : bool :=
  match tok with
  | SESSDATA => is_not_None (sessdata c)
  | BILI_JCT => is_not_None (bili_jct c)
  | DEDEUSERID => is_not_None (dedeuserid c)
  end.

Definition has_sessdata := has SESSDATA.
Definition has_bili_jct := has BILI_JCT.
Definition has_dedeuserid := has DEDEUSERID.

End Credential.

(** ** Requests, events, and the world outside the module *)

(** One call [request(method, url, params=..., data=..., credential=...)];
    an argument that the call site leaves out is [None]. *)
Record Request : Type := mkRequest {
  req_method : string;
  req_url : string;
  req_params : option dict;
  req_data : option dict;
  req_credential : option Credential.t
}.

(** What the module does to the outside world, in order:
    a gateway call, a direct [httpx.get] (which carries no cookies unless
    given some), and [time.sleep] (duration in milliseconds). *)
Inductive event : Type :=
| EvRequest (r : Request)
| EvHttpxGet (url : string) (params : dict) (cookies : option dict)
| EvSleep (millis : Z).

Definition trace : Type := list event.

Definition is_gateway_call (e : event) : bool :=
  match e with EvRequest _ => true | _ => false end.

(** Number of gateway invocations recorded in a trace. *)
Definition gateway_calls (tr : trace) : nat :=
  length (filter is_gateway_call tr).

(** The collaborators of [user.py].  Remote answers may depend on everything
    that happened before, so the two network oracles read the trace. *)
Class Externals : Type := {
  (** [get_api(file)[section][operation]["url"]], the endpoint registry *)
  get_api : string -> string -> string -> string;
  (** [utils.network_httpx.request]: the decoded payload, or an exception *)
  request_oracle : trace -> Request -> exn + pyval;
  (** [httpx.get(url, params=params).text] *)
  httpx_get_oracle : trace -> string -> dict -> exn + string;
  (** [json.loads] on a [str]; [None] stands for [JSONDecodeError] *)
  json_loads : string -> option pyval;
  (** the builtin [str] on a value *)
  py_str : pyval -> string;
  (** [str(e)] on an exception *)
  exn_str : exn -> string;
  (** [utils.utils.join(separator, items)] *)
  utils_join : string -> list Z -> string
}.

(** ** The monad: a trace threaded through fallible steps *)

Definition M (A : Type) : Type := trace -> result A * trace.

Definition ret {A} (a : A) : M A := fun tr => (Ok a, tr).

Definition raise {A} (e : exn) : M A := fun tr => (Raise e, tr).

Definition bind {A B} (m : M A) (k : A -> M B) : M B :=
  fun tr =>
    match m tr with
    | (Ok a, tr') => k a tr'
    | (Raise e, tr') => (Raise e, tr')
    end.

Notation "x <- m ;; k" := (bind m (fun x => k))
  (at level 61, m at next level, right associativity).
Notation "m ;;; k" := (bind m (fun _ => k))
  (at level 61, right associativity).

(** A pure step that may raise. *)
Definition lift {A} (r : result A) : M A := fun tr => (r, tr).

(** [try: body / except <class> as e: handler(e) / else: orelse(v)].
    [handler e = None] means that no [except] clause matches [e]. *)
Definition try_except_else {A B} (body : M A)
    (handler : exn -> option (M B)) (orelse : A -> M B) : M B :=
  fun tr =>
    match body tr with
    | (Ok a, tr') => orelse a tr'
    | (Raise e, tr') =>
        match handler e with
        | Some h => h tr'
        | None => (Raise e, tr')
        end
    end.

(** The outcome of an external call: its value, or the exception it raised. *)
Definition answer {A} (x : exn + A) : result A :=
  match x with
  | inl e => Raise e
  | inr v => Ok v
  end.

(** [assert b] *)
Definition py_assert (b : bool) : M unit :=
  if b then ret tt else raise AssertionError.

Section Effects.
Context `{Externals}.

(** [await request(method, url, params=, data=, credential=)] *)
Definition request (method url : string) (params data : option dict)
    (credential : option Credential.t) : M pyval :=
  fun tr =>
    let r := mkRequest method url params data credential in
    (answer (request_oracle tr r), tr ++ [EvRequest r]).

(** [httpx.get(url, params=params).text] *)
Definition httpx_get_text (url : string) (params : dict) : M string :=
  fun tr =>
    (answer (httpx_get_oracle tr url params),
     tr ++ [EvHttpxGet url params None]).

(** [time.sleep] *)
Definition sleep (millis : Z) : M unit :=
  fun tr => (Ok tt, tr ++ [EvSleep millis]).

(** [credential.raise_for_no_sessdata()] and its siblings.
    Modelled from the spec: each presence check raises the typed
    precondition error when the token is absent. *)
Definition raise_for_no (tok : token) (c : Credential.t) : M unit :=
  if Credential.has tok c then ret tt
  else raise (CredentialNoTokenException tok).

Definition raise_for_no_sessdata := raise_for_no SESSDATA.
Definition raise_for_no_bili_jct := raise_for_no BILI_JCT.
Definition raise_for_no_dedeuserid := raise_for_no DEDEUSERID.

End Effects.

(** ** Python's operations on values *)

(** [v[k]] for a string key.  Only a [dict] can be subscripted by a string;
    a missing key is a [KeyError], everything else a [TypeError]. *)
Definition py_getitem (v : pyval) (k : string) : result pyval :=
  match v with
  | PDict d =>
      match dict_get d k with
      | Some x => Ok x
      | None => Raise (KeyError k)
      end
  | _ => Raise TypeError
  end.

(** [v[k] = x] for a string key: the updated object. *)
Definition py_setitem (v : pyval) (k : string) (x : pyval) : result pyval :=
  match v with
  | PDict d => Ok (PDict (dict_set d k x))
  | _ => Raise TypeError
  end.

Definition is_str (k : string) (v : pyval) : bool :=
  match v with PStr s => String.eqb k s | _ => false end.

(** [k in v] for a string [k]: key test on a [dict], membership in a
    [list], substring test on a [str]; other values are not containers. *)
Definition py_contains (k : string) (v : pyval) : result bool :=
  match v with
  | PDict d => Ok (existsb (String.eqb k) (dict_keys d))
  | PList l => Ok (existsb (is_str k) l)
  | PStr s => Ok (match String.index 0 k s with Some _ => true | None => false end)
  | _ => Raise TypeError
  end.

(** A Python [str] is held as its UTF-8 encoding, so one character is one
    lead byte with the continuation bytes (binary 10xxxxxx) after it. *)
Definition is_continuation (c : ascii) : bool :=
  (128 <=? nat_of_ascii c)%nat && (nat_of_ascii c <? 192)%nat.

(** The continuation bytes [s] begins with, and the characters after them,
    each with all its bytes. *)
Fixpoint split_chars (s : string) : string * list string :=
  match s with
  | EmptyString => (EmptyString, [])
  | String c s' =>
      let (continuation, rest) := split_chars s' in
      if is_continuation c
      then (String c continuation, rest)
      else (EmptyString, String c continuation :: rest)
  end.

(** The characters of a [str], one string per code point.  (A text that
    begins with continuation bytes encodes no [str]; they are kept
    together.) *)
Definition chars (s : string) : list pyval :=
  let (continuation, rest) := split_chars s in
  map PStr (match continuation with
            | EmptyString => rest
            | _ => continuation :: rest
            end).

(** What [for x in v] enumerates: the items of a [list], the keys of a
    [dict], the characters of a [str]. *)
Definition py_iter (v : pyval) : result (list pyval) :=
  match v with
  | PList l => Ok l
  | PDict d => Ok (map PStr (dict_keys d))
  | PStr s => Ok (chars s)
  | _ => Raise TypeError
  end.

(** [v == 0].  Python compares numbers across [int], [bool] and [float];
    a value of any other type is simply unequal. *)
Definition py_eq_zero (v : pyval) : bool :=
  match v with
  | PInt n => n =? 0
  | PBool b => negb b
  | PFloat f => PrimFloat.eqb f PrimFloat.zero
  | _ => false
  end.

(** The integer a value stands for where Python needs one ([range],
    integer [//] and [%]): an [int], or a [bool] counted as 0 or 1. *)
Definition py_index (v : pyval) : option Z :=
  match v with
  | PInt n => Some n
  | PBool b => Some (Z.b2z b)
  | _ => None
  end.

(** [range(lo, hi, 1)] *)
Definition py_range (lo hi : Z) : list Z :=
  map (fun i => lo + Z.of_nat i) (seq 0 (Z.to_nat (hi - lo))).

(** ** Enumerations *)

Inductive ChannelOrder : Type := DEFAULT | CHANGE.

Definition ChannelOrder_value (o : ChannelOrder) : pyval :=
  match o with
  | DEFAULT => PStr "false"
  | CHANGE => PStr "true"
  end.

Inductive RelationType : Type :=
| SUBSCRIBE | UNSUBSCRIBE | SUBSCRIBE_SECRETLY | BLOCK | UNBLOCK | REMOVE_FANS.

Definition RelationType_value (r : RelationType) : pyval :=
  match r with
  | SUBSCRIBE => PInt 1
  | UNSUBSCRIBE => PInt 2
  | SUBSCRIBE_SECRETLY => PInt 3
  | BLOCK => PInt 5
  | UNBLOCK => PInt 6
  | REMOVE_FANS => PInt 7
  end.

Inductive ChannelSeriesType : Type := SERIES | SEASON.

Definition ChannelSeriesType_value (t : ChannelSeriesType) : Z :=
  match t with
  | SERIES => 0
  | SEASON => 1
  end.

Section Builtins.
Context `{Externals}.

(** [json.loads(v)]: a [str] is decoded, any other value of JSON shape is
    rejected with a [TypeError]. *)
Definition py_json_loads (v : pyval) : result pyval :=
  match v with
  | PStr s =>
      match json_loads s with
      | Some x => Ok x
      | None => Raise (JSONDecodeError s)
      end
  | _ => Raise TypeError
  end.

End Builtins.

(** ** get_self_info *)

Section SelfInfo.
Context `{Externals}.

Definition get_self_info (credential : Credential.t) : M pyval :=
  let api_url := get_api "user" "info" "my_info" in
  raise_for_no_sessdata credential ;;;
  request "GET" api_url None None (Some credential).

End SelfInfo.

(** [for x in xs: <update x in place>]: the items after the loop, or the
    first exception raised by the body. *)
Fixpoint for_each_update {A B} (body : A -> M B) (xs : list A) : M (list B) :=
  match xs with
  | [] => ret []
  | x :: xs' =>
      y <- body x ;;
      ys <- for_each_update body xs' ;;
      ret (y :: ys)
  end.

(** ** class User *)

Module User.

(** [uid] is whatever the caller stored: an [int] by the annotation, the
    ["mid"] of a fetched payload when a [ChannelSeries] resolves its
    owner. *)
Record t : Type := mk {
  uid : pyval;
  credential : Credential.t;
  self_info : pyval
}.

Definition __init__ (uid : pyval) (credential : option Credential.t) : t :=
  mk uid
     (match credential with
      | None => Credential.new
      | Some c => c
      end)
     PNone.

Definition get_uid (self : t) : pyval := uid self.

Section Methods.
Context `{Externals}.

Definition set_space_notice (self : t) (content : string) : M pyval :=
  raise_for_no_sessdata (credential self) ;;;
  raise_for_no_bili_jct (credential self) ;;;
  let api_url := get_api "user" "operate" "set_space_notice" in
  let data := [("notice", PStr content)] in
  request "POST" api_url None (Some data) (Some (credential self)).

Definition get_up_stat (self : t) : M pyval :=
  raise_for_no_bili_jct (credential self) ;;;
  let api_url := get_api "user" "info" "upstat" in
  let params := [("mid", uid self)] in
  request "GET" api_url (Some params) None (Some (credential self)).

Definition get_user_medal (self : t) : M pyval :=
  raise_for_no_sessdata (credential self) ;;;
  let api_url := get_api "user" "info" "user_medal" in
  let params := [("target_id", uid self)] in
  request "GET" api_url (Some params) None (Some (credential self)).

(** One card of the dynamics feed:
    [card["card"] = json.loads(card["card"])] and then
    [card["extend_json"] = json.loads(card["extend_json"])]. *)
Definition decode_card (card : pyval) : M pyval :=
  c <- lift (py_getitem card "card") ;;
  c' <- lift (py_json_loads c) ;;
  card1 <- lift (py_setitem card "card" c') ;;
  e <- lift (py_getitem card1 "extend_json") ;;
  e' <- lift (py_json_loads e) ;;
  lift (py_setitem card1 "extend_json" e').

(** The loop mutates the items of [data["cards"]] in place.  A decoded
    payload is a tree, so the effect on [data] is that the list under
    ["cards"] holds the updated items; when the loop ran over the keys of
    a [dict] or the characters of a [str] it had nothing to update. *)
Definition store_cards (data cards : pyval) (items : list pyval) : result pyval :=
  match cards with
  | PList _ => py_setitem data "cards" (PList items)
  | _ => Ok data
  end.

Definition get_dynamics (self : t) (offset : Z) (need_top : bool) : M pyval :=
  let api_url := get_api "user" "info" "dynamic" in
  let params := [("host_uid", uid self);
                 ("offset_dynamic_id", PInt offset);
                 ("need_top", PInt (if need_top then 1 else 0))] in
  data <- request "GET" api_url (Some params) None (Some (credential self)) ;;
  has_cards <- lift (py_contains "cards" data) ;;
  if has_cards : bool then
    cards <- lift (py_getitem data "cards") ;;
    items <- lift (py_iter cards) ;;
    items' <- for_each_update decode_card items ;;
    lift (store_cards data cards items')
  else ret data.

Definition modify_relation (self : t) (relation : RelationType) : M pyval :=
  raise_for_no_sessdata (credential self) ;;;
  raise_for_no_bili_jct (credential self) ;;;
  let api_url := get_api "user" "operate" "modify" in
  let data := [("fid", uid self);
               ("act", RelationType_value relation);
               ("re_src", PInt 11)] in
  request "POST" api_url None (Some data) (Some (credential self)).

Definition get_channel_videos_series (self : t) (sid pn ps : Z) : M pyval :=
  let api_url := get_api "user" "info" "channel_video_series" in
  let param := [("mid", uid self); ("series_id", PInt sid);
                ("pn", PInt pn); ("ps", PInt ps)] in
  request "GET" api_url (Some param) None (Some (credential self)).

Definition get_channel_videos_season (self : t) (sid : Z)
    (sort : ChannelOrder) (pn ps : Z) : M pyval :=
  let api_url := get_api "user" "info" "channel_video_season" in
  let param := [("mid", uid self); ("season_id", PInt sid);
                ("sort_reverse", ChannelOrder_value sort);
                ("page_num", PInt pn); ("page_size", PInt ps)] in
  request "GET" api_url (Some param) None (Some (credential self)).

Definition get_channel_list (self : t) : M pyval :=
  let api_url := get_api "user" "info" "channel_list" in
  let param := [("mid", uid self); ("page_num", PInt 1); ("page_size", PInt 1)] in
  res <- request "GET" api_url (Some param) None (Some (credential self)) ;;
  items_lists <- lift (py_getitem res "items_lists") ;;
  page <- lift (py_getitem items_lists "page") ;;
  items <- lift (py_getitem page "total") ;;
  sleep 500 ;;;
  let items := if py_eq_zero items then PInt 1 else items in
  let param := dict_set param "page_size" items in
  request "GET" api_url (Some param) None (Some (credential self)).

End Methods.

End User.

(** ** class ChannelSeries *)

Module ChannelSeries.

Record t : Type := mk {
  uid : pyval;
  is_new : Z;
  id_ : Z;
  owner : User.t;
  credential : option Credential.t;
  meta : pyval
}.

(** Truth value of [self.is_new], an [int]. *)
Definition truthy (n : Z) : bool := negb (n =? 0).

Section Methods.
Context `{Externals}.

(** [ChannelSeries(uid, type_, id_, credential, meta)].  The defaults of
    the signature are [uid = -1], [type_ = SERIES], [id_ = -1],
    [credential = None], [meta = None]; [meta] is [PNone] when the
    caller supplies no snapshot. *)
Definition __init__ (uid : Z) (type_ : option ChannelSeriesType) (id_ : Z)
    (credential : option Credential.t) (meta : pyval) : M t :=
  py_assert (negb (id_ =? -1)) ;;;
  ty <- match type_ with
        | Some ty => ret ty
        | None => raise AssertionError
        end ;;
  let is_new := ChannelSeriesType_value ty in
  match meta with
  | PNone =>
      let '(api_url, params) :=
        if truthy is_new
        then (get_api "user" "channel_series" "season_info",
              [("season_id", PInt id_)])
        else (get_api "user" "channel_series" "info",
              [("series_id", PInt id_)]) in
      text <- httpx_get_text api_url params ;;
      doc <- lift (py_json_loads (PStr text)) ;;
      resp <- lift (py_getitem doc "data") ;;
      if truthy is_new then
        info <- lift (py_getitem resp "info") ;;
        upper <- lift (py_getitem resp "upper") ;;
        upper_mid <- lift (py_getitem upper "mid") ;;
        meta' <- lift (py_setitem info "mid" upper_mid) ;;
        mid <- lift (py_getitem meta' "mid") ;;
        ret (mk mid is_new id_ (User.__init__ mid credential) credential meta')
      else
        meta' <- lift (py_getitem resp "meta") ;;
        mid <- lift (py_getitem meta' "mid") ;;
        ret (mk mid is_new id_ (User.__init__ mid credential) credential meta')
  | _ =>
      ret (mk (PInt uid) is_new id_ (User.__init__ (PInt uid) credential)
              credential meta)
  end.

Definition get_meta (self : t) : pyval := meta self.

Definition get_videos (self : t) (sort : ChannelOrder) (pn ps : Z) : M pyval :=
  if truthy (is_new self)
  then User.get_channel_videos_season (owner self) (id_ self) sort pn ps
  else User.get_channel_videos_series (owner self) (id_ self) pn ps.

End Methods.

End ChannelSeries.

(** ** Module-level operations *)

Section Operations.
Context `{Externals}.

(** [credential if credential else Credential()] *)
Definition or_new (credential : option Credential.t) : Credential.t :=
  match credential with
  | Some c => c
  | None => Credential.new
  end.

(** [",".join(map(lambda x: str(x), aids))] *)
Definition join_str (aids : list pyval) : string :=
  String.concat "," (map py_str aids).

Definition create_channel_series (name : string) (aids : list pyval)
    (keywords : list string) (description : string)
    (credential : option Credential.t) : M pyval :=
  let credential := or_new credential in
  raise_for_no_sessdata credential ;;;
  raise_for_no_bili_jct credential ;;;
  let api_url := get_api "user" "channel_series" "create" in
  info <- get_self_info credential ;;
  mid <- lift (py_getitem info "mid") ;;
  let data := [("mid", mid);
               ("aids", PStr (join_str aids));
               ("name", PStr name);
               ("keywords", PStr (String.concat "," keywords));
               ("description", PStr description)] in
  request "POST" api_url None (Some data) (Some credential).

(** [series_total // 20 + (1 if (series_total % 20 != 0) else 0)] *)
Definition page_count (series_total : Z) : Z :=
  series_total / 20 + (if negb (series_total mod 20 =? 0) then 1 else 0).

(** The page walk of [del_channel_series]: for each page number, fetch the
    page with page size 20 and append every item of its ["aids"]. *)
Fixpoint collect_aids (self_uid : pyval) (series_id : Z)
    (credential : Credential.t) (pages : list Z) (aids : list pyval)
    : M (list pyval) :=
  match pages with
  | [] => ret aids
  | page :: pages' =>
      page_info <- User.get_channel_videos_series
                     (User.__init__ self_uid (Some credential))
                     series_id page 20 ;;
      page_aids <- lift (py_getitem page_info "aids") ;;
      items <- lift (py_iter page_aids) ;;
      collect_aids self_uid series_id credential pages' (aids ++ items)
  end.

Definition del_channel_series (series_id : Z) (credential : Credential.t)
    : M pyval :=
  raise_for_no_sessdata credential ;;;
  raise_for_no_bili_jct credential ;;;
  series <- ChannelSeries.__init__ (-1) (Some SERIES) series_id
              (Some credential) PNone ;;
  series_total <- lift (py_getitem (ChannelSeries.get_meta series) "total") ;;
  info <- get_self_info credential ;;
  self_uid <- lift (py_getitem info "mid") ;;
  (* a total that is no integer fails in [//] or, for a float, in [range] *)
  pages <- lift (match py_index series_total with
                 | Some n => Ok (page_count n)
                 | None => Raise TypeError
                 end) ;;
  aids <- collect_aids self_uid series_id credential
            (py_range 1 (pages + 1)) [] ;;
  let api_url := get_api "user" "channel_series" "del_channel_series" in
  let data := [("mid", self_uid);
               ("series_id", PInt series_id);
               ("aids", PStr (join_str aids))] in
  request "POST" api_url None (Some data) (Some credential).

Definition add_aids_to_series (series_id : Z) (aids : list pyval)
    (credential : Credential.t) : M pyval :=
  raise_for_no_sessdata credential ;;;
  raise_for_no_bili_jct credential ;;;
  self_info <- get_self_info credential ;;
  let api_url := get_api "user" "channel_series" "add_channel_aids_series" in
  mid <- lift (py_getitem self_info "mid") ;;
  let data := [("mid", mid);
               ("series_id", PInt series_id);
               ("aids", PStr (join_str aids))] in
  request "POST" api_url None (Some data) (Some credential).

Definition del_aids_from_series (series_id : Z) (aids : list pyval)
    (credential : Credential.t) : M pyval :=
  raise_for_no_sessdata credential ;;;
  raise_for_no_bili_jct credential ;;;
  self_info <- get_self_info credential ;;
  let api_url := get_api "user" "channel_series" "del_channel_aids_series" in
  mid <- lift (py_getitem self_info "mid") ;;
  let data := [("mid", mid);
               ("series_id", PInt series_id);
               ("aids", PStr (join_str aids))] in
  request "POST" api_url None (Some data) (Some credential).

Definition edit_self_info (birthday sex uname usersign : string)
    (credential : Credential.t) : M pyval :=
  raise_for_no_sessdata credential ;;;
  raise_for_no_bili_jct credential ;;;
  let api_url := get_api "user" "info" "edit_my_info" in
  let data := [("birthday", PStr birthday); ("sex", PStr sex);
               ("uname", PStr uname); ("usersign", PStr usersign)] in
  request "POST" api_url None (Some data) (Some credential).

Definition create_subscribe_group (name : string) (credential : Credential.t)
    : M pyval :=
  raise_for_no_sessdata credential ;;;
  raise_for_no_bili_jct credential ;;;
  let api_url := get_api "user" "operate" "create_subscribe_group" in
  let data := [("tag", PStr name)] in
  request "POST" api_url None (Some data) (Some credential).

Definition delete_subscribe_group (group_id : Z) (credential : Credential.t)
    : M pyval :=
  raise_for_no_sessdata credential ;;;
  raise_for_no_bili_jct credential ;;;
  let api_url := get_api "user" "operate" "del_subscribe_group" in
  let data := [("tagid", PInt group_id)] in
  request "POST" api_url None (Some data) (Some credential).

Definition rename_subscribe_group (group_id : Z) (new_name : string)
    (credential : Credential.t) : M pyval :=
  raise_for_no_sessdata credential ;;;
  raise_for_no_bili_jct credential ;;;
  let api_url := get_api "user" "operate" "rename_subscribe_group" in
  let data := [("tagid", PInt group_id); ("name", PStr new_name)] in
  request "POST" api_url None (Some data) (Some credential).

Definition set_subscribe_group (uids group_ids : list Z)
    (credential : Credential.t) : M pyval :=
  raise_for_no_sessdata credential ;;;
  raise_for_no_bili_jct credential ;;;
  let api_url := get_api "user" "operate" "set_user_subscribe_group" in
  let data := [("fids", PStr (utils_join "," uids));
               ("tagids", PStr (utils_join "," group_ids))] in
  request "POST" api_url None (Some data) (Some credential).

Definition get_self_history (page_num per_page_item : Z)
    (credential : option Credential.t) : M pyval :=
  let credential := or_new credential in
  raise_for_no_sessdata credential ;;;
  let api_url := get_api "user" "info" "history" in
  let params := [("pn", PInt page_num); ("ps", PInt per_page_item)] in
  request "GET" api_url (Some params) None (Some credential).

Definition get_self_coins (credential : option Credential.t) : M pyval :=
  let credential := or_new credential in
  raise_for_no_sessdata credential ;;;
  raise_for_no_dedeuserid credential ;;;
  let api_url := get_api "user" "info" "get_coins" in
  resp <- request "GET" api_url None None (Some credential) ;;
  lift (py_getitem resp "money").

Definition get_toview_list (credential : Credential.t) : M pyval :=
  let api_url := get_api "toview" "info" "list" in
  raise_for_no_sessdata credential ;;;
  request "GET" api_url None None (Some credential).

Definition clear_toview_list (credential : Credential.t) : M pyval :=
  let api_url := get_api "toview" "operate" "clear" in
  raise_for_no_sessdata credential ;;;
  raise_for_no_bili_jct credential ;;;
  request "POST" api_url None None (Some credential).

Definition delete_viewed_videos_from_toview (credential : Credential.t)
    : M pyval :=
  let api_url := get_api "toview" "operate" "del" in
  raise_for_no_sessdata credential ;;;
  raise_for_no_bili_jct credential ;;;
  let datas := [("viewed", PStr "true")] in
  request "POST" api_url None (Some datas) (Some credential).

Definition is_ResponseCodeException (e : exn) : bool :=
  match e with ResponseCodeException _ _ => true | _ => false end.

Definition check_nickname (nick_name : string) : M (bool * string) :=
  let api_url := get_api "common" "nickname" "check_nickname" in
  let params := [("nickName", PStr nick_name)] in
  try_except_else
    (request "GET" api_url (Some params) None None)
    (fun e => if is_ResponseCodeException e
              then Some (ret (false, exn_str e))
              else None)
    (fun resp => ret (true, "")).

Definition get_self_notes_info (page_num page_size : Z)
    (credential : Credential.t) : M pyval :=
  py_assert (0 <? page_num) ;;;
  py_assert (0 <? page_size) ;;;
  raise_for_no_sessdata credential ;;;
  let api_url := get_api "user" "info" "all_notes" in
  let params := [("pn", PInt page_num); ("ps", PInt page_size)] in
  request "GET" api_url (Some params) None (Some credential).

Definition get_self_public_notes_info (page_num page_size : Z)
    (credential : Credential.t) : M pyval :=
  py_assert (0 <? page_num) ;;;
  py_assert (0 <? page_size) ;;;
  raise_for_no_sessdata credential ;;;
  let api_url := get_api "user" "info" "public_notes" in
  let params := [("pn", PInt page_num); ("ps", PInt page_size)] in
  request "GET" api_url (Some params) None (Some credential).

End Operations.

(** ** A reference environment

    One concrete instance of [Externals], on which the operations can be
    run: a decoder for the float-free fragment of JSON, decimal rendering of
    integers, and a scripted remote service. *)

Module Reference.

Definition dquote : ascii := "034"%char.
Definition backslash : ascii := "092"%char.

(** [quoted s] is [s] between double quotes. *)
Definition quoted (s : string) : string :=
  String dquote (s ++ String dquote EmptyString)%string.

Definition is_ws (c : ascii) : bool :=
  (c =? " ")%char || (c =? "009")%char || (c =? "010")%char || (c =? "013")%char.

Fixpoint skip_ws (s : string) : string :=
  match s with
  | String c s' => if is_ws c then skip_ws s' else s
  | EmptyString => s
  end.

Definition unescape (c : ascii) : option ascii :=
  if (c =? dquote)%char then Some dquote
  else if (c =? backslash)%char then Some backslash
  else if (c =? "/")%char then Some "/"%char
  else if (c =? "b")%char then Some "008"%char
  else if (c =? "f")%char then Some "012"%char
  else if (c =? "n")%char then Some "010"%char
  else if (c =? "r")%char then Some "013"%char
  else if (c =? "t")%char then Some "009"%char
  else None.

(** The body of a string literal, after its opening quote. *)
Fixpoint parse_str (s : string) : option (string * string) :=
  match s with
  | EmptyString => None
  | String c s' =>
      if (c =? dquote)%char then Some (EmptyString, s')
      else if (c =? backslash)%char then
        match s' with
        | String e s'' =>
            match unescape e, parse_str s'' with
            | Some ch, Some (r, rest) => Some (String ch r, rest)
            | _, _ => None
            end
        | EmptyString => None
        end
      else
        match parse_str s' with
        | Some (r, rest) => Some (String c r, rest)
        | None => None
        end
  end.

Definition digit (c : ascii) : option Z :=
  let n := Z.of_nat (nat_of_ascii c) in
  if (48 <=? n) && (n <=? 57) then Some (n - 48) else None.

(** Leading digits of [s] as a number, with how many there were. *)
Fixpoint parse_digits (s : string) (acc : Z) (count : nat) : Z * nat * string :=
  match s with
  | String c s' =>
      match digit c with
      | Some d => parse_digits s' (10 * acc + d) (S count)
      | None => (acc, count, s)
      end
  | EmptyString => (acc, count, s)
  end.

Definition starts_fraction (s : string) : bool :=
  match s with
  | String c _ => (c =? ".")%char || (c =? "e")%char || (c =? "E")%char
  | EmptyString => false
  end.

(** An integer literal: no leading zero, no fraction, no exponent. *)
Definition parse_int (s : string) : option (Z * string) :=
  match s with
  | String c _ =>
      match parse_digits s 0 0 with
      | (_, O, _) => None
      | (n, S k, rest) =>
          if ((c =? "0")%char && negb (Nat.eqb k 0)) || starts_fraction rest
          then None else Some (n, rest)
      end
  | EmptyString => None
  end.

Fixpoint strip_prefix (p s : string) : option string :=
  match p, s with
  | EmptyString, _ => Some s
  | String a p', String b s' => if (a =? b)%char then strip_prefix p' s' else None
  | String _ _, EmptyString => None
  end.

Fixpoint parse_value (fuel : nat) (s : string) : option (pyval * string) :=
  match fuel with
  | O => None
  | S fuel' =>
      match skip_ws s with
      | EmptyString => None
      | String c rest =>
          if (c =? "{")%char then
            match skip_ws rest with
            | String "}" rest' => Some (PDict [], rest')
            | _ => parse_members fuel' rest []
            end
          else if (c =? "[")%char then
            match skip_ws rest with
            | String "]" rest' => Some (PList [], rest')
            | _ => parse_elements fuel' rest []
            end
          else if (c =? dquote)%char then
            match parse_str rest with
            | Some (str, rest') => Some (PStr str, rest')
            | None => None
            end
          else if (c =? "-")%char then
            match parse_int rest with
            | Some (n, rest') => Some (PInt (- n), rest')
            | None => None
            end
          else if (c =? "n")%char then
            option_map (pair PNone) (strip_prefix "ull" rest)
          else if (c =? "t")%char then
            option_map (pair (PBool true)) (strip_prefix "rue" rest)
          else if (c =? "f")%char then
            option_map (pair (PBool false)) (strip_prefix "alse" rest)
          else
            match parse_int (String c rest) with
            | Some (n, rest') => Some (PInt n, rest')
            | None => None
            end
      end
  end

with parse_elements (fuel : nat) (s : string) (acc : list pyval)
    : option (pyval * string) :=
  match fuel with
  | O => None
  | S fuel' =>
      match parse_value fuel' s with
      | Some (v, rest) =>
          match skip_ws rest with
          | String "," rest' => parse_elements fuel' rest' (acc ++ [v])
          | String "]" rest' => Some (PList (acc ++ [v]), rest')
          | _ => None
          end
      | None => None
      end
  end

with parse_members (fuel : nat) (s : string) (acc : dict)
    : option (pyval * string) :=
  match fuel with
  | O => None
  | S fuel' =>
      match skip_ws s with
      | String c rest =>
          if (c =? dquote)%char then
            match parse_str rest with
            | Some (k, rest1) =>
                match skip_ws rest1 with
                | String ":" rest2 =>
                    match parse_value fuel' rest2 with
                    | Some (v, rest3) =>
                        match skip_ws rest3 with
                        | String "," rest4 =>
                            parse_members fuel' rest4 (dict_set acc k v)
                        | String "}" rest4 =>
                            Some (PDict (dict_set acc k v), rest4)
                        | _ => None
                        end
                    | None => None
                    end
                | _ => None
                end
            | None => None
            end
          else None
      | EmptyString => None
      end
  end.

(** The decoder: one value, then nothing but blanks. *)
Definition loads (s : string) : option pyval :=
  match parse_value (2 * String.length s + 2) s with
  | Some (v, rest) =>
      match skip_ws rest with
      | EmptyString => Some v
      | _ => None
      end
  | None => None
  end.

Definition string_of_Z (n : Z) : string :=
  DecimalString.NilZero.string_of_int (Z.to_int n).

Definition str (v : pyval) : string :=
  match v with
  | PNone => "None"
  | PBool true => "True"
  | PBool false => "False"
  | PInt n => string_of_Z n
  | PStr s => s
  | _ => "?"
  end.

Definition str_exn (e : exn) : string :=
  match e with
  | ResponseCodeException code msg =>
      (string_of_Z code ++ ": " ++ msg)%string
  | _ => "error"
  end.

(** The JSON text of an object with the one key [a], bound to 1. *)
Definition card_text : string := ("{" ++ quoted "a" ++ ":1}")%string.

(** A dynamics payload: an object with the one key ["cards"]. *)
Definition feed (cards : list pyval) : pyval := PDict [("cards", PList cards)].

Definition api (file section operation : string) : string :=
  (file ++ "/" ++ section ++ "/" ++ operation)%string.

End Reference.

(** *** The scripted remote service *)

Module Remote.
Import Reference.

(** Account 7 is logged in; its legacy collection 5 has 41 videos, numbered
    1 to 41 and served 20 to a page. *)
Definition series_total : Z := 41.

Definition page_aids (pn : Z) : list pyval :=
  map PInt (py_range (20 * (pn - 1) + 1) (Z.min (20 * pn) series_total + 1)).

Definition series_text : string :=
  ("{" ++ quoted "data" ++ ":{" ++ quoted "meta" ++ ":{"
       ++ quoted "series_id" ++ ":5," ++ quoted "mid" ++ ":7,"
       ++ quoted "total" ++ ":41}}}")%string.

Definition season_text : string :=
  ("{" ++ quoted "data" ++ ":{" ++ quoted "info" ++ ":{"
       ++ quoted "season_id" ++ ":6}," ++ quoted "upper" ++ ":{"
       ++ quoted "mid" ++ ":9}}}")%string.

(** The feeds of three users: a well-formed one, one whose first card does
    not decode, and one whose first item has no ["card"] at all. *)
Definition dynamics (host_uid : option pyval) : pyval :=
  match host_uid with
  | Some (PInt 2) =>
      feed [PDict [("card", PStr card_text); ("extend_json", PStr "{")]]
  | Some (PInt 3) =>
      feed [PDict [("extend_json", PStr "{}")];
            PDict [("card", PStr "{"); ("extend_json", PStr "{}")]]
  | _ =>
      feed [PDict [("card", PStr card_text); ("extend_json", PStr "{}")]]
  end.

(** User 2 has no channel, every other user has three. *)
Definition channel_list (mid page_size : option pyval) : pyval :=
  let total := match mid with Some (PInt 2) => 0 | _ => 3 end in
  PDict [("items_lists",
          PDict [("page", PDict [("page_num", PInt 1);
                                 ("page_size", match page_size with
                                               | Some v => v
                                               | None => PNone
                                               end);
                                 ("total", PInt total)]);
                 ("seasons_list", PList []);
                 ("series_list", PList [])])].

Definition nickname (nick : option pyval) : exn + pyval :=
  match nick with
  | Some (PStr "taken") => inl (ResponseCodeException 40014 "nickname taken")
  | Some (PStr "offline") => inl (OtherException "NetworkException")
  | Some (PStr "hasty") => inl (ResponseCodeException (-412) "request blocked")
  | _ => inr PNone
  end.

Definition param (r : Request) (k : string) : option pyval :=
  match req_params r with
  | Some d => dict_get d k
  | None => None
  end.

Definition gateway (tr : trace) (r : Request) : exn + pyval :=
  let url := req_url r in
  if String.eqb url (api "user" "info" "my_info") then
    inr (PDict [("mid", PInt 7)])
  else if String.eqb url (api "user" "info" "channel_video_series") then
    match param r "pn" with
    | Some (PInt pn) => inr (PDict [("aids", PList (page_aids pn))])
    | _ => inl (ResponseCodeException (-400) "bad request")
    end
  else if String.eqb url (api "user" "info" "channel_list") then
    inr (channel_list (param r "mid") (param r "page_size"))
  else if String.eqb url (api "user" "info" "dynamic") then
    inr (dynamics (param r "host_uid"))
  else if String.eqb url (api "common" "nickname" "check_nickname") then
    nickname (param r "nickName")
  else inr (PDict []).

Definition web (tr : trace) (url : string) (params : dict) : exn + string :=
  if String.eqb url (api "user" "channel_series" "season_info")
  then inr season_text
  else inr series_text.

Definition join (sep : string) (items : list Z) : string :=
  String.concat sep (map string_of_Z items).

Definition env : Externals := {|
  get_api := api;
  request_oracle := gateway;
  httpx_get_oracle := web;
  json_loads := loads;
  py_str := str;
  exn_str := str_exn;
  utils_join := join
|}.

(** A credential holding all three tokens, and the users of the script. *)
Definition login : Credential.t :=
  Credential.mk (Some "sess") (Some "csrf") (Some "7").

Definition user (n : Z) : User.t := User.__init__ (PInt n) (Some login).

End Remote.

(** ** Specification vocabulary *)

(** The operation stops at the credential check: it raises the precondition
    error for [tok] and leaves the trace as it found it, so neither the
    gateway nor any other part of the network was reached. *)
Definition refused_before_network {A} (tok : token) (m : M A) : Prop :=
  forall tr, m tr = (Raise (CredentialNoTokenException tok), tr).

(** Every operation of the module that calls [raise_for_no_sessdata], with
    its arguments. *)
Inductive session_op : Type :=
| SetSpaceNotice (uid : pyval) (content : string)
| GetUserMedal (uid : pyval)
| ModifyRelation (uid : pyval) (relation : RelationType)
| CreateChannelSeries (name : string) (aids : list pyval)
    (keywords : list string) (description : string)
| DelChannelSeries (series_id : Z)
| AddAidsToSeries (series_id : Z) (aids : list pyval)
| DelAidsFromSeries (series_id : Z) (aids : list pyval)
| GetSelfInfo
| EditSelfInfo (birthday sex uname usersign : string)
| CreateSubscribeGroup (name : string)
| DeleteSubscribeGroup (group_id : Z)
| RenameSubscribeGroup (group_id : Z) (new_name : string)
| SetSubscribeGroup (uids group_ids : list Z)
| GetSelfHistory (page_num per_page_item : Z)
| GetSelfCoins
| GetToviewList
| ClearToviewList
| DeleteViewedVideosFromToview
| GetSelfNotesInfo (page_num page_size : Z)
| GetSelfPublicNotesInfo (page_num page_size : Z).

Section Vocabulary.
Context `{Externals}.

(** Calling the operation with the credential [c]. *)
Definition call (op : session_op) (c : Credential.t) : M pyval :=
  match op with
  | SetSpaceNotice uid content =>
      User.set_space_notice (User.__init__ uid (Some c)) content
  | GetUserMedal uid => User.get_user_medal (User.__init__ uid (Some c))
  | ModifyRelation uid relation =>
      User.modify_relation (User.__init__ uid (Some c)) relation
  | CreateChannelSeries name aids keywords description =>
      create_channel_series name aids keywords description (Some c)
  | DelChannelSeries series_id => del_channel_series series_id c
  | AddAidsToSeries series_id aids => add_aids_to_series series_id aids c
  | DelAidsFromSeries series_id aids => del_aids_from_series series_id aids c
  | GetSelfInfo => get_self_info c
  | EditSelfInfo birthday sex uname usersign =>
      edit_self_info birthday sex uname usersign c
  | CreateSubscribeGroup name => create_subscribe_group name c
  | DeleteSubscribeGroup group_id => delete_subscribe_group group_id c
  | RenameSubscribeGroup group_id new_name =>
      rename_subscribe_group group_id new_name c
  | SetSubscribeGroup uids group_ids => set_subscribe_group uids group_ids c
  | GetSelfHistory page_num per_page_item =>
      get_self_history page_num per_page_item (Some c)
  | GetSelfCoins => get_self_coins (Some c)
  | GetToviewList => get_toview_list c
  | ClearToviewList => clear_toview_list c
  | DeleteViewedVideosFromToview => delete_viewed_videos_from_toview c
  | GetSelfNotesInfo page_num page_size =>
      get_self_notes_info page_num page_size c
  | GetSelfPublicNotesInfo page_num page_size =>
      get_self_public_notes_info page_num page_size c
  end.

(** The [assert] statements an operation runs ahead of its credential
    check: only the two notes listings have any. *)
Definition asserts_hold (op : session_op) : bool :=
  match op with
  | GetSelfNotesInfo page_num page_size
  | GetSelfPublicNotesInfo page_num page_size =>
      (0 <? page_num) && (0 <? page_size)
  | _ => true
  end.

(** [res["items_lists"]["page"]["total"]] *)
Definition reported_total (res : pyval) : result pyval :=
  match py_getitem res "items_lists" with
  | Ok items_lists =>
      match py_getitem items_lists "page" with
      | Ok page => py_getitem page "total"
      | Raise e => Raise e
      end
  | Raise e => Raise e
  end.

(** The two requests of [get_channel_list], by page size. *)
Definition channel_list_request (self : User.t) (page_size : pyval) : Request :=
  mkRequest "GET" (get_api "user" "info" "channel_list")
    (Some [("mid", User.uid self); ("page_num", PInt 1);
           ("page_size", page_size)])
    None (Some (User.credential self)).

(** The page size a request asks for. *)
Definition requested_page_size (r : Request) : option pyval :=
  match req_params r with
  | Some d => dict_get d "page_size"
  | None => None
  end.

(** The metadata fetch of a legacy collection: a plain [httpx.get], without
    cookies. *)
Definition series_info_fetch (id_ : Z) : event :=
  EvHttpxGet (get_api "user" "channel_series" "info")
    [("series_id", PInt id_)] None.

(** The request of [check_nickname]. *)
Definition nickname_request (nick_name : string) : Request :=
  mkRequest "GET" (get_api "common" "nickname" "check_nickname")
    (Some [("nickName", PStr nick_name)]) None None.

(** The request of [get_dynamics]. *)
Definition dynamics_request (self : User.t) (offset : Z) (need_top : bool)
    : Request :=
  mkRequest "GET" (get_api "user" "info" "dynamic")
    (Some [("host_uid", User.uid self);
           ("offset_dynamic_id", PInt offset);
           ("need_top", PInt (if need_top then 1 else 0))])
    None (Some (User.credential self)).

(** A field that holds a string which [json.loads] accepts. *)
Definition decodes (field : option pyval) : bool :=
  match field with
  | Some (PStr s) =>
      match json_loads s with
      | Some _ => true
      | None => false
      end
  | _ => false
  end.

(** An item of the feed whose ["card"] and ["extend_json"] are valid JSON
    strings. *)
Definition card_decodes (item : pyval) : bool :=
  match item with
  | PDict d => decodes (dict_get d "card") && decodes (dict_get d "extend_json")
  | _ => false
  end.

(** [item'] is [item] with the two string fields replaced by what they
    decode to: same keys in the same order, every other field as it was. *)
Definition fields_decoded (item item' : pyval) : Prop :=
  exists d d' c e vc ve,
    item = PDict d /\ item' = PDict d' /\
    dict_get d "card" = Some (PStr c) /\ json_loads c = Some vc /\
    dict_get d "extend_json" = Some (PStr e) /\ json_loads e = Some ve /\
    dict_get d' "card" = Some vc /\
    dict_get d' "extend_json" = Some ve /\
    dict_keys d' = dict_keys d /\
    forall k, k <> "card" -> k <> "extend_json" -> dict_get d' k = dict_get d k.

(** The document on which decoding an item fails: its ["card"] string when
    that is rejected, else its ["extend_json"] string when that is. *)
Definition undecodable (item : pyval) : option string :=
  match item with
  | PDict d =>
      match dict_get d "card" with
      | Some (PStr c) =>
          match json_loads c with
          | None => Some c
          | Some _ =>
              match dict_get d "extend_json" with
              | Some (PStr e) =>
                  match json_loads e with
                  | None => Some e
                  | Some _ => None
                  end
              | _ => None
              end
          end
      | _ => None
      end
  | _ => None
  end.

(** The requests of [del_channel_series]. *)
Definition self_info_request (credential : Credential.t) : Request :=
  mkRequest "GET" (get_api "user" "info" "my_info") None None (Some credential).

Definition page_request (self_uid : pyval) (series_id : Z)
    (credential : Credential.t) (page : Z) : Request :=
  mkRequest "GET" (get_api "user" "info" "channel_video_series")
    (Some [("mid", self_uid); ("series_id", PInt series_id);
           ("pn", PInt page); ("ps", PInt 20)])
    None (Some credential).

Definition deletion_request (self_uid : pyval) (series_id : Z)
    (credential : Credential.t) (aids : list pyval) : Request :=
  mkRequest "POST" (get_api "user" "channel_series" "del_channel_series")
    None
    (Some [("mid", self_uid); ("series_id", PInt series_id);
           ("aids", PStr (join_str aids))])
    (Some credential).

(** Starting from the trace [tr], the gateway answers the page requests for
    [pages], one after the other, with payloads whose ["aids"] are the lists
    [aids_by_page]. *)
Inductive pages_served (self_uid : pyval) (series_id : Z)
    (credential : Credential.t) : trace -> list Z -> list (list pyval) -> Prop :=
| served_none (tr : trace) :
    pages_served self_uid series_id credential tr [] []
| served_page (tr : trace) (page : Z) (pages : list Z) (info : pyval)
    (aids : list pyval) (aids_by_page : list (list pyval)) :
    request_oracle tr (page_request self_uid series_id credential page)
    = inr info ->
    py_getitem info "aids" = Ok (PList aids) ->
    pages_served self_uid series_id credential
      (tr ++ [EvRequest (page_request self_uid series_id credential page)])
      pages aids_by_page ->
    pages_served self_uid series_id credential tr
      (page :: pages) (aids :: aids_by_page).

(** The events of the page walk. *)
Definition page_walk (self_uid : pyval) (series_id : Z)
    (credential : Credential.t) (pages : list Z) : trace :=
  map (fun page => EvRequest (page_request self_uid series_id credential page))
      pages.

End Vocabulary.

(** A gateway call that submits data. *)
Definition is_post (e : event) : bool :=
  match e with
  | EvRequest r => String.eqb (req_method r) "POST"
  | _ => false
  end.

(** ** The rest of the module

    The operations below complete the embedding of [user.py]: the public
    reads of [User], the two reads that go through the shared HTTP session,
    the self-info cache, [get_channels], and the remaining module-level
    functions. *)

(** [bool(v)]: the truth value of a value of JSON shape. *)
Definition py_truthy (v : pyval) : bool :=
  match v with
  | PNone => false
  | PBool b => b
  | PInt n => negb (n =? 0)
  | PFloat f => negb (PrimFloat.eqb f PrimFloat.zero)
  | PStr s => negb (String.eqb s EmptyString)
  | PList l => match l with [] => false | _ :: _ => true end
  | PDict d => match d with [] => false | _ :: _ => true end
  end.

(** [v != -1], with Python's comparison of numbers across [int], [bool] and
    [float]; a value of any other type is unequal to a number. *)
Definition py_ne_minus_one (v : pyval) : bool :=
  match v with
  | PInt n => negb (n =? -1)
  | PFloat f => negb (PrimFloat.eqb f (PrimFloat.opp PrimFloat.one))
  | _ => true
  end.

Module VideoOrder.
Inductive t : Type := PUBDATE | FAVORITE | VIEW.
Definition value (o : t) : pyval :=
  match o with
  | PUBDATE => PStr "pubdate"
  | FAVORITE => PStr "stow"
  | VIEW => PStr "click"
  end.
End VideoOrder.

Module AudioOrder.
Inductive t : Type := PUBDATE | VIEW | FAVORITE.
Definition value (o : t) : pyval :=
  match o with
  | PUBDATE => PInt 1
  | VIEW => PInt 2
  | FAVORITE => PInt 3
  end.
End AudioOrder.

Module AlbumType.
Inductive t : Type := ALL | DRAW | PHOTO | DAILY.
Definition value (o : t) : pyval :=
  match o with
  | ALL => PStr "all"
  | DRAW => PStr "draw"
  | PHOTO => PStr "photo"
  | DAILY => PStr "daily"
  end.
End AlbumType.

Module ArticleOrder.
Inductive t : Type := PUBDATE | FAVORITE | VIEW.
Definition value (o : t) : pyval :=
  match o with
  | PUBDATE => PStr "publish_time"
  | FAVORITE => PStr "fav"
  | VIEW => PStr "view"
  end.
End ArticleOrder.

Module ArticleListOrder.
Inductive t : Type := LATEST | VIEW.
Definition value (o : t) : pyval :=
  match o with
  | LATEST => PInt 0
  | VIEW => PInt 1
  end.
End ArticleListOrder.

Module BangumiType.
Inductive t : Type := BANGUMI | DRAMA.
Definition value (o : t) : pyval :=
  match o with
  | BANGUMI => PInt 1
  | DRAMA => PInt 2
  end.
End BangumiType.

(** The shared HTTP session of [utils.network_httpx], which two reads of
    [User] use directly instead of the gateway. *)
Class Session : Type := {
  (** Modelled from the spec: [credential.get_cookies()], the credential's
      "export cookies" of the credential boundary; [utils/Credential.py] is
      not part of the sources at hand. *)
  get_cookies : Credential.t -> dict;
  (** [await get_session().request(method, url=, params=, follow_redirects=,
      cookies=)]: the [text] and [status_code] of the response, or the
      exception raised.  [sess.get] is the same call with method [GET] and
      without following redirects. *)
  session_oracle :
    trace -> string -> string -> dict -> dict -> bool -> exn + (string * Z)
}.

(** What else [json.loads] can raise.  [json_loads] has two outcomes, a
    value or [JSONDecodeError]; the decoder also raises exceptions of other
    classes ([ValueError] for an integer literal beyond the digit limit,
    [RecursionError] for a text nested too deeply), and those are decided
    first.  An [except JSONDecodeError] clause does not catch them. *)
Class DecoderLimits : Type := {
  json_loads_other : string -> option exn
}.

Section SessionEffects.
Context `{Session}.

Definition session_request (method url : string) (params cookies : dict)
    (follow_redirects : bool) : M (string * Z) :=
  fun tr =>
    (answer (session_oracle tr method url params cookies follow_redirects),
     tr ++ [EvHttpxGet url params (Some cookies)]).

End SessionEffects.

(** *** class User, continued *)

Module UserReads.

Section Methods.
Context `{Externals}.

Definition get_user_info (self : User.t) : M pyval :=
  let api_url := get_api "user" "info" "info" in
  let params := [("mid", User.uid self)] in
  request "GET" api_url (Some params) None (Some (User.credential self)).

(** [User.__get_self_info]: the cached self info when there is one, else a
    fetch that fills the cache.  The method mutates [self]; the embedding
    returns the object as it is after the call. *)
Definition __get_self_info (self : User.t) : M (pyval * User.t) :=
  match User.self_info self with
  | PNone =>
      info <- get_self_info (User.credential self) ;;
      ret (info, User.mk (User.uid self) (User.credential self) info)
  | cached => ret (cached, self)
  end.

Definition get_space_notice (self : User.t) : M pyval :=
  let api_url := get_api "user" "info" "space_notice" in
  let params := [("mid", User.uid self)] in
  request "GET" api_url (Some params) None (Some (User.credential self)).

Definition get_relation_info (self : User.t) : M pyval :=
  let api_url := get_api "user" "info" "relation" in
  let params := [("vmid", User.uid self)] in
  request "GET" api_url (Some params) None (Some (User.credential self)).

Definition get_top_videos (self : User.t) : M pyval :=
  let api_url := get_api "user" "info" "user_top_videos" in
  let params := [("vmid", User.get_uid self)] in
  request "GET" api_url (Some params) None (Some (User.credential self)).

Definition get_live_info (self : User.t) : M pyval :=
  let api_url := get_api "user" "info" "live" in
  let params := [("mid", User.uid self)] in
  request "GET" api_url (Some params) None (Some (User.credential self)).

Definition get_videos (self : User.t) (tid pn ps : Z) (keyword : string)
    (order : VideoOrder.t) : M pyval :=
  let api_url := get_api "user" "info" "video" in
  let params := [("mid", User.uid self); ("ps", PInt ps); ("tid", PInt tid);
                 ("pn", PInt pn); ("keyword", PStr keyword);
                 ("order", VideoOrder.value order)] in
  request "GET" api_url (Some params) None (Some (User.credential self)).

Definition get_audios (self : User.t) (order : AudioOrder.t) (pn ps : Z)
    : M pyval :=
  let api_url := get_api "user" "info" "audio" in
  let params := [("uid", User.uid self); ("ps", PInt ps); ("pn", PInt pn);
                 ("order", AudioOrder.value order)] in
  request "GET" api_url (Some params) None (Some (User.credential self)).

Definition get_album (self : User.t) (biz : AlbumType.t)
    (page_num page_size : Z) : M pyval :=
  let api_url := get_api "user" "info" "album" in
  let params := [("uid", User.uid self); ("page_num", PInt page_num);
                 ("page_size", PInt page_size);
                 ("biz", AlbumType.value biz)] in
  request "GET" api_url (Some params) None (Some (User.credential self)).

Definition get_articles (self : User.t) (pn : Z) (order : ArticleOrder.t)
    (ps : Z) : M pyval :=
  let api_url := get_api "user" "info" "article" in
  let params := [("mid", User.uid self); ("ps", PInt ps); ("pn", PInt pn);
                 ("sort", ArticleOrder.value order)] in
  request "GET" api_url (Some params) None (Some (User.credential self)).

Definition get_article_list (self : User.t) (order : ArticleListOrder.t)
    : M pyval :=
  let api_url := get_api "user" "info" "article_lists" in
  let params := [("mid", User.uid self);
                 ("sort", ArticleListOrder.value order)] in
  request "GET" api_url (Some params) None (Some (User.credential self)).

Definition get_subscribed_bangumi (self : User.t) (pn : Z)
    (type_ : BangumiType.t) : M pyval :=
  let api_url := get_api "user" "info" "bangumi" in
  let params := [("vmid", User.uid self); ("pn", PInt pn); ("ps", PInt 15);
                 ("type", BangumiType.value type_)] in
  request "GET" api_url (Some params) None (Some (User.credential self)).

Definition get_followings (self : User.t) (pn ps : Z) (attention : bool)
    : M pyval :=
  let api_url := get_api "user" "info" "all_followings2" in
  let params := [("vmid", User.uid self); ("ps", PInt ps); ("pn", PInt pn);
                 ("order_type",
                  PStr (if attention then "attention" else EmptyString))] in
  request "GET" api_url (Some params) None (Some (User.credential self)).

Definition get_followers (self : User.t) (pn ps : Z) (desc : bool) : M pyval :=
  let api_url := get_api "user" "info" "followers" in
  let params := [("vmid", User.uid self); ("ps", PInt ps); ("pn", PInt pn);
                 ("order", PStr (if desc then "desc" else "asc"))] in
  request "GET" api_url (Some params) None (Some (User.credential self)).

(** [since] is [None] or an integer, as the docstring has it;
    [if since:] is false for both [None] and 0. *)
Definition top_followers (self : User.t) (since : option Z) : M pyval :=
  let api_url := get_api "user" "info" "top_followers" in
  let params : dict := [] in
  let params :=
    match since with
    | Some t => if negb (t =? 0) then dict_set params "t" (PInt t) else params
    | None => params
    end in
  request "GET" api_url (Some params) None (Some (User.credential self)).

Definition get_overview_stat (self : User.t) : M pyval :=
  let api_url := get_api "user" "info" "overview" in
  let params := [("mid", User.uid self); ("jsonp", PStr "jsonp")] in
  request "GET" api_url (Some params) None (Some (User.credential self)).

Definition get_cheese (self : User.t) : M pyval :=
  let api_url := get_api "user" "info" "pugv" in
  let params := [("mid", User.uid self)] in
  request "GET" api_url (Some params) None None.

Definition get_reservation (self : User.t) : M pyval :=
  let api_url := get_api "user" "info" "reservation" in
  let params := [("vmid", User.get_uid self)] in
  request "GET" api_url (Some params) None (Some (User.credential self)).

End Methods.

Section SessionMethods.
Context `{Externals} `{Session} `{DecoderLimits}.

(** [json.loads(text)] with every exception it can raise. *)
Definition loads_text (text : string) : result pyval :=
  match json_loads_other text with
  | Some e => Raise e
  | None => py_json_loads (PStr text)
  end.

(** What [get_user_fav_tag] returns when the response text does not
    decode. *)
Definition undecoded (status_code : Z) : pyval :=
  PDict [("status", PBool false);
         ("data", PStr ("解析接口返回的数据失败:"
                          ++ py_str (PInt status_code))%string)].

(** What it returns in place of a falsy payload. *)
Definition failed : pyval :=
  PDict [("status", PBool false); ("data", PStr "Failed")].

(** [try: r_json = json.loads(resp.text) / except JSONDecodeError: r_json =
    <the status dict>]: only that class is caught. *)
Definition loads_or_status (text : string) (status_code : Z) : result pyval :=
  match loads_text text with
  | Ok v => Ok v
  | Raise (JSONDecodeError _) => Ok (undecoded status_code)
  | Raise e => Raise e
  end.

(** [self.credential] is never [None] after [User.__init__], so only the
    [else] branch of the cookie selection is modelled. *)
Definition get_user_fav_tag (self : User.t) : M pyval :=
  let api_url := get_api "user" "info" "user_tag" in
  let params := [("mid", User.uid self)] in
  let cookies := get_cookies (User.credential self) in
  let cookies := dict_set cookies "Domain" (PStr ".bilibili.com") in
  resp <- session_request "GET" api_url params cookies true ;;
  r_json <- lift (loads_or_status (fst resp) (snd resp)) ;;
  let r_json := if negb (py_truthy r_json) then failed else r_json in
  ret r_json.

Definition get_all_followings (self : User.t) : M pyval :=
  let api_url := get_api "user" "info" "all_followings" in
  let params := [("mid", User.uid self)] in
  resp <- session_request "GET" api_url params
            (get_cookies (User.credential self)) false ;;
  data <- lift (py_json_loads (PStr (fst resp))) ;;
  card <- lift (py_getitem data "card") ;;
  lift (py_getitem card "attentions").

End SessionMethods.

End UserReads.

(** *** The constructor of ChannelSeries on untyped arguments

    [get_channels] hands the constructor what it read from a payload, so
    [uid] and [id_] may be values of any type.  This is [ChannelSeries.__init__]
    again, with the two arguments as [pyval]. *)

Module ChannelSeriesAny.

Record t : Type := mk {
  uid : pyval;
  is_new : Z;
  id_ : pyval;
  owner : User.t;
  credential : option Credential.t;
  meta : pyval
}.

Section Methods.
Context `{Externals}.

Definition __init__ (uid : pyval) (type_ : option ChannelSeriesType)
    (id_ : pyval) (credential : option Credential.t) (meta : pyval) : M t :=
  py_assert (py_ne_minus_one id_) ;;;
  ty <- match type_ with
        | Some ty => ret ty
        | None => raise AssertionError
        end ;;
  let is_new := ChannelSeriesType_value ty in
  match meta with
  | PNone =>
      let '(api_url, params) :=
        if ChannelSeries.truthy is_new
        then (get_api "user" "channel_series" "season_info",
              [("season_id", id_)])
        else (get_api "user" "channel_series" "info",
              [("series_id", id_)]) in
      text <- httpx_get_text api_url params ;;
      doc <- lift (py_json_loads (PStr text)) ;;
      resp <- lift (py_getitem doc "data") ;;
      if ChannelSeries.truthy is_new then
        info <- lift (py_getitem resp "info") ;;
        upper <- lift (py_getitem resp "upper") ;;
        upper_mid <- lift (py_getitem upper "mid") ;;
        meta' <- lift (py_setitem info "mid" upper_mid) ;;
        mid <- lift (py_getitem meta' "mid") ;;
        ret (mk mid is_new id_ (User.__init__ mid credential) credential meta')
      else
        meta' <- lift (py_getitem resp "meta") ;;
        mid <- lift (py_getitem meta' "mid") ;;
        ret (mk mid is_new id_ (User.__init__ mid credential) credential meta')
  | _ =>
      ret (mk uid is_new id_ (User.__init__ uid credential) credential meta)
  end.

End Methods.

(** A typed object seen as an untyped one. *)
Definition of_typed (series : ChannelSeries.t) : t :=
  mk (ChannelSeries.uid series) (ChannelSeries.is_new series)
     (PInt (ChannelSeries.id_ series)) (ChannelSeries.owner series)
     (ChannelSeries.credential series) (ChannelSeries.meta series).

End ChannelSeriesAny.

Definition map_result {A B} (f : A -> B) (r : result A) : result B :=
  match r with
  | Ok a => Ok (f a)
  | Raise e => Raise e
  end.

Section MoreOperations.
Context `{Externals}.

(** One entry of [get_channels]: [id_ = item["meta"][key]],
    [meta = item["meta"]], then the constructor with the snapshot. *)
Definition channel_of (self : User.t) (type_ : ChannelSeriesType)
    (key : string) (item : pyval) : M ChannelSeriesAny.t :=
  item_meta <- lift (py_getitem item "meta") ;;
  id_ <- lift (py_getitem item_meta key) ;;
  meta <- lift (py_getitem item "meta") ;;
  ChannelSeriesAny.__init__ (User.uid self) (Some type_) id_
    (Some (User.credential self)) meta.

Definition get_channels (self : User.t) : M (list ChannelSeriesAny.t) :=
  channel_data <- User.get_channel_list self ;;
  items_lists <- lift (py_getitem channel_data "items_lists") ;;
  seasons_list <- lift (py_getitem items_lists "seasons_list") ;;
  seasons <- lift (py_iter seasons_list) ;;
  channels <- for_each_update (channel_of self SEASON "season_id") seasons ;;
  items_lists <- lift (py_getitem channel_data "items_lists") ;;
  series_list <- lift (py_getitem items_lists "series_list") ;;
  series <- lift (py_iter series_list) ;;
  more <- for_each_update (channel_of self SERIES "series_id") series ;;
  ret (channels ++ more).

(** [names] is a [str] or a list of [str]. *)
Definition name2uid (names : string + list string) : M pyval :=
  let api_url := get_api "user" "info" "name_to_uid" in
  let n :=
    match names with
    | inl s => s
    | inr l => String.concat "," l
    end in
  let params := [("names", PStr n)] in
  request "GET" api_url (Some params) None None.

Definition get_self_events (ts : Z) (credential : option Credential.t)
    : M pyval :=
  let credential := or_new credential in
  let api_url := get_api "user" "info" "events" in
  let params := [("ts", PInt ts)] in
  request "GET" api_url (Some params) None (Some credential).

End MoreOperations.

(** *** More vocabulary *)

(** The tokens an operation checks, in the order of its checks. *)
Definition needs (op : session_op) : list token :=
  match op with
  | GetUserMedal _ | GetSelfInfo | GetSelfHistory _ _ | GetToviewList
  | GetSelfNotesInfo _ _ | GetSelfPublicNotesInfo _ _ => [SESSDATA]
  | GetSelfCoins => [SESSDATA; DEDEUSERID]
  | _ => [SESSDATA; BILI_JCT]
  end.

(** The first token of [toks] that the credential does not hold. *)
Definition first_missing (c : Credential.t) (toks : list token) : option token :=
  find (fun tok => negb (Credential.has tok c)) toks.

(** The reads of [User] that check no token, with their arguments. *)
Inductive public_read : Type :=
| GetUserInfo
| GetSpaceNotice
| GetRelationInfo
| GetTopVideos
| GetLiveInfo
| GetVideos (tid pn ps : Z) (keyword : string) (order : VideoOrder.t)
| GetAudios (order : AudioOrder.t) (pn ps : Z)
| GetAlbum (biz : AlbumType.t) (page_num page_size : Z)
| GetArticles (pn : Z) (order : ArticleOrder.t) (ps : Z)
| GetArticleList (order : ArticleListOrder.t)
| GetSubscribedBangumi (pn : Z) (type_ : BangumiType.t)
| GetFollowings (pn ps : Z) (attention : bool)
| GetFollowers (pn ps : Z) (desc : bool)
| TopFollowers (since : option Z)
| GetOverviewStat
| GetCheese
| GetReservation
| GetChannelVideosSeries (sid pn ps : Z)
| GetChannelVideosSeason (sid : Z) (sort : ChannelOrder) (pn ps : Z).

(** The one read that leaves the credential out of its request. *)
Definition forwards_credential (op : public_read) : bool :=
  match op with
  | GetCheese => false
  | _ => true
  end.

(** The one read that does not send the user's uid. *)
Definition sends_uid (op : public_read) : bool :=
  match op with
  | TopFollowers _ => false
  | _ => true
  end.

Definition is_JSONDecodeError (e : exn) : bool :=
  match e with JSONDecodeError _ => true | _ => false end.

Definition no_post (evs : trace) : Prop := filter is_post evs = [].

(** The computation only appends events, and none of them submits data. *)
Definition quiet {A} (m : M A) : Prop :=
  forall tr, exists evs, snd (m tr) = tr ++ evs /\ no_post evs.

(** The computation appends no event. *)
Definition silent {A} (m : M A) : Prop :=
  forall tr, snd (m tr) = tr.

Section MoreVocabulary.
Context `{Externals}.

Definition read (op : public_read) (self : User.t) : M pyval :=
  match op with
  | GetUserInfo => UserReads.get_user_info self
  | GetSpaceNotice => UserReads.get_space_notice self
  | GetRelationInfo => UserReads.get_relation_info self
  | GetTopVideos => UserReads.get_top_videos self
  | GetLiveInfo => UserReads.get_live_info self
  | GetVideos tid pn ps keyword order =>
      UserReads.get_videos self tid pn ps keyword order
  | GetAudios order pn ps => UserReads.get_audios self order pn ps
  | GetAlbum biz page_num page_size =>
      UserReads.get_album self biz page_num page_size
  | GetArticles pn order ps => UserReads.get_articles self pn order ps
  | GetArticleList order => UserReads.get_article_list self order
  | GetSubscribedBangumi pn type_ =>
      UserReads.get_subscribed_bangumi self pn type_
  | GetFollowings pn ps attention =>
      UserReads.get_followings self pn ps attention
  | GetFollowers pn ps desc => UserReads.get_followers self pn ps desc
  | TopFollowers since => UserReads.top_followers self since
  | GetOverviewStat => UserReads.get_overview_stat self
  | GetCheese => UserReads.get_cheese self
  | GetReservation => UserReads.get_reservation self
  | GetChannelVideosSeries sid pn ps =>
      User.get_channel_videos_series self sid pn ps
  | GetChannelVideosSeason sid sort pn ps =>
      User.get_channel_videos_season self sid sort pn ps
  end.

(** A write either raises before it submits anything, or its one [POST] is
    the last event and decides the outcome. *)
Definition post_last (m : M pyval) : Prop :=
  forall tr, exists evs,
    snd (m tr) = tr ++ evs /\
    ((no_post evs /\ exists e, fst (m tr) = Raise e) \/
     (exists pre r,
         evs = pre ++ [EvRequest r] /\ no_post pre /\
         req_method r = "POST" /\
         fst (m tr) = answer (request_oracle (tr ++ pre) r))).

(** An item of a channel listing from which [get_channels] can build an
    object: it has a ["meta"] that has the id key, and the id is not -1. *)
Definition listable (key : string) (item : pyval) : bool :=
  match py_getitem item "meta" with
  | Ok meta =>
      match py_getitem meta key with
      | Ok id_ => py_ne_minus_one id_
      | Raise _ => false
      end
  | Raise _ => false
  end.

(** The object [get_channels] builds from an item. *)
Definition listed (self : User.t) (type_ : ChannelSeriesType) (key : string)
    (item : pyval) : ChannelSeriesAny.t :=
  let meta := match py_getitem item "meta" with Ok m => m | Raise _ => PNone end in
  let id_ := match py_getitem meta key with Ok v => v | Raise _ => PNone end in
  ChannelSeriesAny.mk (User.uid self) (ChannelSeriesType_value type_) id_
    (User.__init__ (User.uid self) (Some (User.credential self)))
    (Some (User.credential self)) meta.

(** The metadata fetch of a modern collection. *)
Definition season_info_fetch (id_ : Z) : event :=
  EvHttpxGet (get_api "user" "channel_series" "season_info")
    [("season_id", PInt id_)] None.

(** The request that submits new members of a legacy collection. *)
Definition aids_request (operation : string) (mid : pyval) (series_id : Z)
    (credential : Credential.t) (aids : list pyval) : Request :=
  mkRequest "POST" (get_api "user" "channel_series" operation) None
    (Some [("mid", mid); ("series_id", PInt series_id);
           ("aids", PStr (join_str aids))])
    (Some credential).

End MoreVocabulary.

Section SessionVocabulary.
Context `{Externals} `{Session}.

(** The HTTP call of [get_user_fav_tag]. *)
Definition fav_tag_cookies (self : User.t) : dict :=
  dict_set (get_cookies (User.credential self)) "Domain" (PStr ".bilibili.com").

Definition fav_tag_fetch (self : User.t) : event :=
  EvHttpxGet (get_api "user" "info" "user_tag") [("mid", User.uid self)]
    (Some (fav_tag_cookies self)).

Definition followings_fetch (self : User.t) : event :=
  EvHttpxGet (get_api "user" "info" "all_followings") [("mid", User.uid self)]
    (Some (get_cookies (User.credential self))).

End SessionVocabulary.

(** *** A second scripted service

    User 7 has one modern and two legacy collections, user 8 does not exist
    and the listing of user 9 is cut short; nobody has posted anything.  The
    tag page of user 1 is JSON, that of user 2 is an HTML error page, that of
    user 3 is the JSON text of an empty object, that of user 4 is a number
    of 5000 digits. *)

Module Studio.
Import Reference.

Definition season_item : pyval :=
  PDict [("meta", PDict [("season_id", PInt 60); ("name", PStr "s")])].

Definition series_item (n : Z) : pyval :=
  PDict [("meta", PDict [("series_id", PInt n); ("mid", PInt 99)])].

Definition channel_data : pyval :=
  PDict [("items_lists",
          PDict [("page", PDict [("total", PInt 3)]);
                 ("seasons_list", PList [season_item]);
                 ("series_list", PList [series_item 50; series_item 51])])].

Definition gateway (tr : trace) (r : Request) : exn + pyval :=
  let url := req_url r in
  if String.eqb url (api "user" "info" "my_info") then
    match tr with
    | [] => inr PNone
    | _ => inr (PDict [("mid", PInt 7)])
    end
  else if String.eqb url (api "user" "info" "channel_list") then
    match Remote.param r "mid" with
    | Some (PInt 8) => inl (ResponseCodeException (-404) "no such user")
    | Some (PInt 9) => inr (PDict [("items_lists", PDict [])])
    | _ => inr channel_data
    end
  else if String.eqb url (api "user" "info" "dynamic") then
    match Remote.param r "host_uid" with
    | Some (PInt 2) => inr PNone
    | _ => inr (PDict [("has_more", PInt 0)])
    end
  else inr (PDict []).

(** The legacy collection 50 is empty. *)
Definition empty_series_text : string :=
  ("{" ++ quoted "data" ++ ":{" ++ quoted "meta" ++ ":{"
       ++ quoted "series_id" ++ ":50," ++ quoted "mid" ++ ":7,"
       ++ quoted "total" ++ ":0}}}")%string.

(** The metadata of the legacy collection 53 gives its total as text. *)
Definition text_total_series_text : string :=
  ("{" ++ quoted "data" ++ ":{" ++ quoted "meta" ++ ":{"
       ++ quoted "mid" ++ ":7," ++ quoted "total" ++ ":" ++ quoted "41"
       ++ "}}}")%string.

Definition web (tr : trace) (url : string) (params : dict) : exn + string :=
  match dict_get params "series_id" with
  | Some (PInt 50) => inr empty_series_text
  | Some (PInt 53) => inr text_total_series_text
  | Some (PInt 51) => inr "<html>"
  | Some (PInt 52) => inl (OtherException "ConnectError")
  | _ => Remote.web tr url params
  end.

Definition env : Externals := {|
  get_api := api;
  request_oracle := gateway;
  httpx_get_oracle := web;
  json_loads := loads;
  py_str := str;
  exn_str := str_exn;
  utils_join := Remote.join
|}.

Definition cookies (c : Credential.t) : dict :=
  [("SESSDATA", match Credential.sessdata c with
                | Some s => PStr s
                | None => PNone
                end)].

Definition tags_text : string :=
  ("{" ++ quoted "tags" ++ ":[1,2]}")%string.

Definition long_number : string :=
  string_of_list_ascii (repeat "1"%char 5000).

Definition pages (tr : trace) (method url : string) (params cookies : dict)
    (follow_redirects : bool) : exn + (string * Z) :=
  match dict_get params "mid" with
  | Some (PInt 1) => inr (tags_text, 200)
  | Some (PInt 2) => inr ("<html>", 404)
  | Some (PInt 3) => inr ("{}", 200)
  | Some (PInt 4) => inr (long_number, 200)
  | _ => inl (OtherException "ConnectError")
  end.

Definition session : Session := {|
  get_cookies := cookies;
  session_oracle := pages
|}.

(** The decoder refuses an integer literal of more than 4300 digits. *)
Definition limits : DecoderLimits := {|
  json_loads_other := fun text =>
    if String.eqb text long_number
    then Some (OtherException "ValueError")
    else None
|}.

End Studio.

(** ** Basic facts *)

Lemma dict_get_set_same (d : dict) (k : string) (v : pyval) :
  dict_get (dict_set d k v) k = Some v.
Proof.
  induction d as [|[k' v'] d IH]; simpl.
  - now rewrite String.eqb_refl.
  - destruct (String.eqb k k') eqn:E; simpl.
    + now rewrite String.eqb_refl.
    + now rewrite E.
Qed.

Lemma dict_get_set_other (d : dict) (k k' : string) (v : pyval) :
  k <> k' -> dict_get (dict_set d k v) k' = dict_get d k'.
Proof.
  intros Hne. induction d as [|[k0 v0] d IH]; simpl.
  - destruct (String.eqb k' k) eqn:E; [|reflexivity].
    apply String.eqb_eq in E. congruence.
  - destruct (String.eqb k k0) eqn:E; simpl.
    + apply String.eqb_eq in E. subst k0.
      destruct (String.eqb k' k) eqn:E'; [|reflexivity].
      apply String.eqb_eq in E'. congruence.
    + now rewrite IH.
Qed.

Lemma dict_keys_set_present (d : dict) (k : string) (v v0 : pyval) :
  dict_get d k = Some v0 -> dict_keys (dict_set d k v) = dict_keys d.
Proof.
  unfold dict_keys. induction d as [|[k' v'] d IH]; simpl; [discriminate|].
  destruct (String.eqb k k') eqn:E; simpl; intros Hget.
  - apply String.eqb_eq in E. now subst.
  - now rewrite IH.
Qed.

Lemma gateway_calls_app (tr1 tr2 : trace) :
  gateway_calls (tr1 ++ tr2) = (gateway_calls tr1 + gateway_calls tr2)%nat.
Proof.
  unfold gateway_calls. now rewrite filter_app, length_app.
Qed.

Section MonadFacts.
Context `{Externals}.

Lemma raise_for_no_absent {A} (tok : token) (c : Credential.t) (k : M A) tr :
  Credential.has tok c = false ->
  (raise_for_no tok c ;;; k) tr = (Raise (CredentialNoTokenException tok), tr).
Proof.
  intros Hc. unfold bind, raise_for_no. now rewrite Hc.
Qed.

Lemma raise_for_no_present {A} (tok : token) (c : Credential.t) (k : M A) tr :
  Credential.has tok c = true ->
  (raise_for_no tok c ;;; k) tr = k tr.
Proof.
  intros Hc. unfold bind, raise_for_no. now rewrite Hc.
Qed.

Lemma bind_run {A B} (m : M A) (k : A -> M B) (tr tr' : trace) (a : A) :
  m tr = (Ok a, tr') -> bind m k tr = k a tr'.
Proof. unfold bind. now intros ->. Qed.

Lemma bind_raises {A B} (m : M A) (k : A -> M B) (tr tr' : trace) (e : exn) :
  m tr = (Raise e, tr') -> bind m k tr = (Raise e, tr').
Proof. unfold bind. now intros ->. Qed.

Lemma bind_lift {A B} (r : result A) (k : A -> M B) (tr : trace) (a : A) :
  r = Ok a -> bind (lift r) k tr = k a tr.
Proof. now intros ->. Qed.

Lemma request_run (method url : string) (params data : option dict)
    (credential : option Credential.t) (tr : trace) :
  request method url params data credential tr
  = (answer (request_oracle tr (mkRequest method url params data credential)),
     tr ++ [EvRequest (mkRequest method url params data credential)]).
Proof. reflexivity. Qed.

Lemma py_assert_holds {A} (b : bool) (k : M A) tr :
  b = true -> (py_assert b ;;; k) tr = k tr.
Proof. now intros ->. Qed.

Lemma py_assert_fails {A} (b : bool) (k : M A) tr :
  b = false -> (py_assert b ;;; k) tr = (Raise AssertionError, tr).
Proof. now intros ->. Qed.

End MonadFacts.

(** ** Credential checks come first *)

Section CredentialFirst.
Context `{Externals}.

(** C1 (amended).  Every operation that requires the session token, called
    with a credential that lacks it, raises the credential precondition
    error and leaves the trace untouched, provided the operation's own
    [assert] statements hold; [get_self_notes_info] and
    [get_self_public_notes_info] assert positive page arguments first and
    raise [AssertionError] when they are not.  In either case the gateway
    is invoked zero times. *)
Theorem session_token_checked_before_gateway
    (op : session_op) (c : Credential.t) :
  Credential.has_sessdata c = false ->
  (asserts_hold op = true -> refused_before_network SESSDATA (call op c)) /\
  (asserts_hold op = false ->
   forall tr, call op c tr = (Raise AssertionError, tr)) /\
  (forall tr, gateway_calls (snd (call op c tr)) = gateway_calls tr).
Proof.
  intros Hc.
  assert (Hok : asserts_hold op = true ->
                refused_before_network SESSDATA (call op c)).
  { intros Ha tr.
    destruct op; simpl in *;
      try (apply andb_prop in Ha; destruct Ha as [Ha1 Ha2]);
      first
        [ apply raise_for_no_absent; exact Hc
        | unfold get_self_notes_info, get_self_public_notes_info;
          rewrite py_assert_holds by assumption;
          rewrite py_assert_holds by assumption;
          apply raise_for_no_absent; exact Hc ]. }
  assert (Hko : asserts_hold op = false ->
                forall tr, call op c tr = (Raise AssertionError, tr)).
  { intros Ha tr.
    destruct op; simpl in *; try discriminate;
      unfold get_self_notes_info, get_self_public_notes_info;
      (destruct (0 <? page_num) eqn:E1;
       [ rewrite py_assert_holds by reflexivity;
         apply py_assert_fails; simpl in Ha; exact Ha
       | apply py_assert_fails; reflexivity ]). }
  split; [exact Hok|]. split; [exact Hko|].
  intros tr. destruct (asserts_hold op) eqn:Ha.
  - now rewrite (Hok eq_refl tr).
  - now rewrite (Hko eq_refl tr).
Qed.

(** Without a credential argument the three operations that accept [None]
    fall back to [Credential()], which holds no token. *)
Lemma default_credential_refused :
  (forall name aids keywords description,
      refused_before_network SESSDATA
        (create_channel_series name aids keywords description None)) /\
  (forall page_num per_page_item,
      refused_before_network SESSDATA
        (get_self_history page_num per_page_item None)) /\
  refused_before_network SESSDATA (get_self_coins None).
Proof.
  repeat split; intros; intros tr; now apply raise_for_no_absent.
Qed.

(** A write operation also needs the cross-site token: with the session
    token present and [bili_jct] absent it stops at the second check. *)
Lemma cross_site_token_checked_before_gateway (c : Credential.t) :
  Credential.has_sessdata c = true ->
  Credential.has_bili_jct c = false ->
  (forall uid content,
      refused_before_network BILI_JCT
        (User.set_space_notice (User.__init__ uid (Some c)) content)) /\
  (forall uid relation,
      refused_before_network BILI_JCT
        (User.modify_relation (User.__init__ uid (Some c)) relation)) /\
  (forall name, refused_before_network BILI_JCT (create_subscribe_group name c)) /\
  refused_before_network BILI_JCT (clear_toview_list c) /\
  (forall series_id,
      refused_before_network BILI_JCT (del_channel_series series_id c)).
Proof.
  intros Hs Hb.
  repeat split; intros; intros tr;
    (etransitivity; [apply raise_for_no_present; exact Hs|]);
    now apply raise_for_no_absent.
Qed.

End CredentialFirst.

(** ** ChannelSeries *)

Section ChannelSeriesFacts.
Context `{Externals}.

(** C9.  With the collection id left at -1, or with no variant, the
    constructor fails its assertion and the trace is untouched: no
    metadata fetch, no gateway request.  Conversely, whenever the
    constructor gets any further (it returns an object, or touches the
    network), a collection id and a variant were supplied. *)
Theorem channel_series_asserts_id_and_variant
    (uid : Z) (type_ : option ChannelSeriesType) (id_ : Z)
    (credential : option Credential.t) (meta : pyval) (tr : trace) :
  (id_ = -1 \/ type_ = None ->
   ChannelSeries.__init__ uid type_ id_ credential meta tr
   = (Raise AssertionError, tr)) /\
  (ChannelSeries.__init__ uid type_ id_ credential meta tr
   <> (Raise AssertionError, tr) ->
   id_ <> -1 /\ type_ <> None).
Proof.
  assert (Hfail : id_ = -1 \/ type_ = None ->
                  ChannelSeries.__init__ uid type_ id_ credential meta tr
                  = (Raise AssertionError, tr)).
  { intros [-> | ->]; unfold ChannelSeries.__init__.
    - reflexivity.
    - destruct (negb (id_ =? -1)) eqn:E.
      + rewrite py_assert_holds by reflexivity. reflexivity.
      + apply py_assert_fails. reflexivity. }
  split; [exact Hfail|].
  intros Hrun. split.
  - intros ->. apply Hrun, Hfail. now left.
  - intros ->. apply Hrun, Hfail. now right.
Qed.

(** C6.  A legacy collection built from its id alone: one [httpx.get]
    without cookies or credential, no gateway call, and the owner is the
    user whose uid is the ["mid"] of the fetched metadata. *)
Theorem legacy_owner_is_fetched_mid
    (uid id_ : Z) (credential : option Credential.t) (tr : trace)
    (text : string) (doc resp meta mid : pyval) :
  id_ <> -1 ->
  httpx_get_oracle tr (get_api "user" "channel_series" "info")
    [("series_id", PInt id_)] = inr text ->
  json_loads text = Some doc ->
  py_getitem doc "data" = Ok resp ->
  py_getitem resp "meta" = Ok meta ->
  py_getitem meta "mid" = Ok mid ->
  exists series,
    ChannelSeries.__init__ uid (Some SERIES) id_ credential PNone tr
    = (Ok series, tr ++ [series_info_fetch id_]) /\
    User.get_uid (ChannelSeries.owner series) = mid /\
    ChannelSeries.owner series = User.__init__ mid credential /\
    ChannelSeries.get_meta series = meta /\
    gateway_calls [series_info_fetch id_] = 0%nat.
Proof.
  intros Hid Hweb Hdoc Hdata Hmeta Hmid.
  eexists. split.
  { unfold ChannelSeries.__init__.
    rewrite py_assert_holds
      by (apply negb_true_iff, Z.eqb_neq; exact Hid).
    unfold bind, ret, lift, httpx_get_text; simpl.
    rewrite Hweb; simpl. rewrite Hdoc; simpl.
    rewrite Hdata. rewrite Hmeta. rewrite Hmid. reflexivity. }
  simpl. repeat split.
Qed.

(** C7.  On a legacy collection [get_videos] does not look at [sort]: any
    two sort values give the same request and the same outcome, and the
    request carries no sort parameter.  On a modern collection the value of
    [sort] is sent as ["sort_reverse"]. *)
Theorem get_videos_sort_only_on_season
    (self : ChannelSeries.t) (pn ps : Z) (tr : trace) :
  (ChannelSeries.is_new self = ChannelSeriesType_value SERIES ->
   (forall sort1 sort2,
       ChannelSeries.get_videos self sort1 pn ps tr
       = ChannelSeries.get_videos self sort2 pn ps tr) /\
   (forall sort, exists r params,
       snd (ChannelSeries.get_videos self sort pn ps tr) = tr ++ [EvRequest r] /\
       req_params r = Some params /\
       dict_keys params = ["mid"; "series_id"; "pn"; "ps"])) /\
  (ChannelSeries.is_new self = ChannelSeriesType_value SEASON ->
   forall sort, exists r params,
     snd (ChannelSeries.get_videos self sort pn ps tr) = tr ++ [EvRequest r] /\
     req_params r = Some params /\
     dict_get params "sort_reverse" = Some (ChannelOrder_value sort)).
Proof.
  unfold ChannelSeries.get_videos. split; intros ->; simpl.
  - split; [reflexivity|].
    intros sort. do 2 eexists. repeat split.
  - intros sort. do 2 eexists. repeat split.
Qed.

End ChannelSeriesFacts.

(** ** check_nickname *)

Section Nickname.
Context `{Externals}.


End Nickname.

(** ** get_channel_list *)

Section ChannelList.
Context `{Externals}.

Lemma reported_total_run (res total : pyval) (k : pyval -> M pyval) (tr : trace) :
  reported_total res = Ok total ->
  (items_lists <- lift (py_getitem res "items_lists") ;;
   page <- lift (py_getitem items_lists "page") ;;
   items <- lift (py_getitem page "total") ;;
   k items) tr = k total tr.
Proof.
  unfold reported_total, bind, lift.
  destruct (py_getitem res "items_lists") as [items_lists|]; [|discriminate].
  destruct (py_getitem items_lists "page") as [page|]; [|discriminate].
  now intros ->.
Qed.

(** The whole run of [get_channel_list] once the probe has been answered
    with a total: a pause, then the second request, whose outcome is the
    outcome of the call. *)
Lemma get_channel_list_run (self : User.t) (tr : trace) (res total : pyval) :
  let first := channel_list_request self (PInt 1) in
  let second :=
    channel_list_request self (if py_eq_zero total then PInt 1 else total) in
  request_oracle tr first = inr res ->
  reported_total res = Ok total ->
  User.get_channel_list self tr
  = (answer (request_oracle (tr ++ [EvRequest first; EvSleep 500]) second),
     tr ++ [EvRequest first; EvSleep 500; EvRequest second]).
Proof.
  intros first second Hfirst Htotal.
  unfold User.get_channel_list.
  erewrite bind_run
    by (rewrite request_run; fold (channel_list_request self (PInt 1));
        fold first; rewrite Hfirst; reflexivity).
  rewrite (reported_total_run _ _ _ _ Htotal).
  unfold bind, sleep. rewrite request_run. simpl dict_set.
  rewrite <- !app_assoc. reflexivity.
Qed.

(** C2.  When the probe reports a total above 1, [get_channel_list] makes
    exactly two gateway calls: the probe with page size 1 and, after the
    pause, a second request whose page size is the reported total. *)
Theorem get_channel_list_probe_then_fetch
    (self : User.t) (tr : trace) (res : pyval) (total : Z) :
  let first := channel_list_request self (PInt 1) in
  let second := channel_list_request self (PInt total) in
  request_oracle tr first = inr res ->
  reported_total res = Ok (PInt total) ->
  1 < total ->
  User.get_channel_list self tr
  = (answer (request_oracle (tr ++ [EvRequest first; EvSleep 500]) second),
     tr ++ [EvRequest first; EvSleep 500; EvRequest second]) /\
  gateway_calls (snd (User.get_channel_list self tr))
  = (gateway_calls tr + 2)%nat /\
  requested_page_size first = Some (PInt 1) /\
  requested_page_size second = Some (PInt total).
Proof.
  intros first second Hfirst Htotal Hgt.
  assert (Hrun : User.get_channel_list self tr
                 = (answer (request_oracle
                              (tr ++ [EvRequest first; EvSleep 500]) second),
                    tr ++ [EvRequest first; EvSleep 500; EvRequest second])).
  { rewrite (get_channel_list_run self tr res (PInt total) Hfirst Htotal).
    simpl py_eq_zero.
    destruct (total =? 0) eqn:E; [apply Z.eqb_eq in E; lia|reflexivity]. }
  split; [exact Hrun|]. split; [|split; reflexivity].
  rewrite Hrun. simpl snd. now rewrite gateway_calls_app.
Qed.

(** C10.  When the probe reports a total of 0, the second request is still
    made, asking for page size 1, and its outcome is the outcome of the
    call. *)
Theorem get_channel_list_zero_total
    (self : User.t) (tr : trace) (res : pyval) :
  let first := channel_list_request self (PInt 1) in
  let second := channel_list_request self (PInt 1) in
  request_oracle tr first = inr res ->
  reported_total res = Ok (PInt 0) ->
  User.get_channel_list self tr
  = (answer (request_oracle (tr ++ [EvRequest first; EvSleep 500]) second),
     tr ++ [EvRequest first; EvSleep 500; EvRequest second]) /\
  requested_page_size second = Some (PInt 1) /\
  gateway_calls (snd (User.get_channel_list self tr))
  = (gateway_calls tr + 2)%nat.
Proof.
  intros first second Hfirst Htotal.
  pose proof (get_channel_list_run self tr res (PInt 0) Hfirst Htotal) as Hrun.
  simpl py_eq_zero in Hrun. cbv iota in Hrun. fold second in Hrun.
  split; [exact Hrun|]. split; [reflexivity|].
  rewrite Hrun. simpl snd. now rewrite gateway_calls_app.
Qed.

End ChannelList.

(** ** get_dynamics *)

Section Dynamics.
Context `{Externals}.

Lemma dict_get_has_key (d : dict) (k : string) (v : pyval) :
  dict_get d k = Some v -> existsb (String.eqb k) (dict_keys d) = true.
Proof.
  unfold dict_keys. induction d as [|[k' v'] d IH]; simpl; [discriminate|].
  destruct (String.eqb k k'); simpl; auto.
Qed.

Lemma decodes_inv (field : option pyval) :
  decodes field = true ->
  exists s v, field = Some (PStr s) /\ json_loads s = Some v.
Proof.
  destruct field as [[| | | |s| |]|]; simpl; try discriminate.
  destruct (json_loads s) as [v|] eqn:E; [|discriminate].
  intros _. now exists s, v.
Qed.

Lemma decode_card_decodes (item : pyval) (tr : trace) :
  card_decodes item = true ->
  exists item',
    User.decode_card item tr = (Ok item', tr) /\ fields_decoded item item'.
Proof.
  destruct item as [| | | | | |d]; simpl; try discriminate.
  intros Hd. apply andb_prop in Hd. destruct Hd as [Hc He].
  apply decodes_inv in Hc. destruct Hc as (c & vc & Hc & Hvc).
  apply decodes_inv in He. destruct He as (e & ve & He & Hve).
  assert (Hne : "card" <> "extend_json") by discriminate.
  assert (He1 : dict_get (dict_set d "card" vc) "extend_json" = Some (PStr e))
    by (rewrite dict_get_set_other; assumption).
  exists (PDict (dict_set (dict_set d "card" vc) "extend_json" ve)). split.
  - unfold User.decode_card, bind, lift, py_getitem, py_json_loads, py_setitem.
    rewrite Hc, Hvc, He1, Hve. reflexivity.
  - exists d, (dict_set (dict_set d "card" vc) "extend_json" ve), c, e, vc, ve.
    repeat split; try assumption.
    + rewrite dict_get_set_other by (intro; congruence).
      apply dict_get_set_same.
    + apply dict_get_set_same.
    + rewrite (dict_keys_set_present _ _ _ _ He1).
      apply (dict_keys_set_present _ _ _ _ Hc).
    + intros k Hk1 Hk2.
      rewrite !dict_get_set_other by (intro; congruence). reflexivity.
Qed.

Lemma decode_card_undecodable (item : pyval) (doc : string) (tr : trace) :
  undecodable item = Some doc ->
  User.decode_card item tr = (Raise (JSONDecodeError doc), tr).
Proof.
  destruct item as [| | | | | |d]; simpl; try discriminate.
  destruct (dict_get d "card") as [[| | | |c| |]|] eqn:Hc; try discriminate.
  unfold User.decode_card, bind, lift, py_getitem, py_json_loads, py_setitem.
  rewrite Hc.
  destruct (json_loads c) as [vc|] eqn:Hvc.
  - rewrite dict_get_set_other by discriminate.
    destruct (dict_get d "extend_json") as [[| | | |e| |]|] eqn:He;
      try discriminate.
    destruct (json_loads e) as [ve|] eqn:Hve; [discriminate|].
    intros [= <-]. reflexivity.
  - intros [= <-]. reflexivity.
Qed.

(** A loop whose body succeeds on every item without touching the trace. *)
Lemma for_each_update_all {A B} (body : A -> M B) (R : A -> B -> Prop)
    (xs : list A) (tr : trace) :
  (forall x, In x xs -> exists y, body x tr = (Ok y, tr) /\ R x y) ->
  exists ys, for_each_update body xs tr = (Ok ys, tr) /\ Forall2 R xs ys.
Proof.
  induction xs as [|x xs IH]; intros Hall; simpl.
  - exists []. split; [reflexivity|constructor].
  - destruct (Hall x (or_introl eq_refl)) as (y & Hy & HR).
    destruct IH as (ys & Hys & HRs); [intros; apply Hall; now right|].
    exists (y :: ys). split; [|now constructor].
    erewrite bind_run by exact Hy. erewrite bind_run by exact Hys. reflexivity.
Qed.

(** A loop stops at the first item on which its body raises. *)
Lemma for_each_update_stops {A B} (body : A -> M B) (pre : list A) (bad : A)
    (rest : list A) (e : exn) (tr : trace) :
  (forall x, In x pre -> exists y, body x tr = (Ok y, tr)) ->
  body bad tr = (Raise e, tr) ->
  for_each_update body (pre ++ bad :: rest) tr = (Raise e, tr).
Proof.
  induction pre as [|x pre IH]; intros Hpre Hbad; simpl.
  - now erewrite bind_raises by exact Hbad.
  - destruct (Hpre x (or_introl eq_refl)) as (y & Hy).
    erewrite bind_run by exact Hy.
    erewrite bind_raises; [reflexivity|].
    apply IH; [intros; apply Hpre; now right|exact Hbad].
Qed.

(** How [get_dynamics] starts on a payload that has a list of cards. *)
Lemma get_dynamics_run (self : User.t) (offset : Z) (need_top : bool)
    (tr : trace) (d : dict) (items : list pyval) :
  let r := dynamics_request self offset need_top in
  request_oracle tr r = inr (PDict d) ->
  dict_get d "cards" = Some (PList items) ->
  User.get_dynamics self offset need_top tr
  = (items' <- for_each_update User.decode_card items ;;
     ret (PDict (dict_set d "cards" (PList items')))) (tr ++ [EvRequest r]).
Proof.
  intros r Hreq Hcards. unfold User.get_dynamics.
  erewrite bind_run
    by (rewrite request_run; fold (dynamics_request self offset need_top);
        fold r; rewrite Hreq; reflexivity).
  cbv beta. unfold py_contains. rewrite (dict_get_has_key _ _ _ Hcards).
  erewrite bind_lift by reflexivity. cbv beta iota.
  erewrite bind_lift by (unfold py_getitem; rewrite Hcards; reflexivity).
  erewrite bind_lift by reflexivity.
  reflexivity.
Qed.

End Dynamics.

Section DynamicsClaims.
Context `{Externals}.

(** C4.  On a payload whose ["cards"] is a list of items with valid JSON
    strings under ["card"] and ["extend_json"], [get_dynamics] returns the
    payload with each of these two fields replaced by the value it decodes
    to, and nothing else changed.  In particular the payload with the single
    item [card = (the text of the object a:1)], [extend_json = (the text of
    the empty object)] comes back with [card] the object [a:1] and
    [extend_json] the empty object. *)
Theorem get_dynamics_decodes_card_fields
    (self : User.t) (offset : Z) (need_top : bool) (tr : trace) :
  let r := dynamics_request self offset need_top in
  (forall (d : dict) (items : list pyval),
      request_oracle tr r = inr (PDict d) ->
      dict_get d "cards" = Some (PList items) ->
      forallb card_decodes items = true ->
      exists d' items',
        User.get_dynamics self offset need_top tr
        = (Ok (PDict d'), tr ++ [EvRequest r]) /\
        dict_get d' "cards" = Some (PList items') /\
        dict_keys d' = dict_keys d /\
        (forall k, k <> "cards" -> dict_get d' k = dict_get d k) /\
        Forall2 fields_decoded items items') /\
  (request_oracle tr r
   = inr (Reference.feed [PDict [("card", PStr Reference.card_text);
                                 ("extend_json", PStr "{}")]]) ->
   json_loads Reference.card_text = Some (PDict [("a", PInt 1)]) ->
   json_loads "{}" = Some (PDict []) ->
   User.get_dynamics self offset need_top tr
   = (Ok (Reference.feed [PDict [("card", PDict [("a", PInt 1)]);
                                 ("extend_json", PDict [])]]),
      tr ++ [EvRequest r])).
Proof.
  intros r. split.
  - intros d items Hreq Hcards Hvalid.
    rewrite (get_dynamics_run self offset need_top tr d items Hreq Hcards).
    destruct (for_each_update_all User.decode_card fields_decoded items
                (tr ++ [EvRequest r])) as (items' & Hloop & Hrel).
    { intros item Hin. apply decode_card_decodes.
      rewrite forallb_forall in Hvalid. now apply Hvalid. }
    exists (dict_set d "cards" (PList items')), items'.
    erewrite bind_run by exact Hloop.
    split; [reflexivity|]. split; [apply dict_get_set_same|].
    split; [apply (dict_keys_set_present _ _ _ _ Hcards)|].
    split; [|exact Hrel].
    intros k Hk. apply dict_get_set_other. congruence.
  - intros Hreq Hcard Hext.
    rewrite (get_dynamics_run self offset need_top tr _ _ Hreq eq_refl).
    unfold for_each_update, User.decode_card, bind, lift, ret,
      py_getitem, py_json_loads, py_setitem; simpl.
    rewrite Hcard; simpl. rewrite Hext. reflexivity.
Qed.

(** C8 (amended).  While [get_dynamics] walks the cards in list order, the
    first string that [json.loads] rejects (the ["card"] of an item, or its
    ["extend_json"] once its ["card"] has decoded) ends the call with the
    [JSONDecodeError] for that string, provided every earlier item is a
    dict whose two fields are strings that decode: nothing in this layer
    catches or converts the error. *)
Theorem get_dynamics_decode_error_propagates
    (self : User.t) (offset : Z) (need_top : bool) (tr : trace)
    (d : dict) (good : list pyval) (bad : pyval) (rest : list pyval)
    (doc : string) :
  let r := dynamics_request self offset need_top in
  request_oracle tr r = inr (PDict d) ->
  dict_get d "cards" = Some (PList (good ++ bad :: rest)) ->
  forallb card_decodes good = true ->
  undecodable bad = Some doc ->
  User.get_dynamics self offset need_top tr
  = (Raise (JSONDecodeError doc), tr ++ [EvRequest r]).
Proof.
  intros r Hreq Hcards Hgood Hbad.
  rewrite (get_dynamics_run self offset need_top tr d _ Hreq Hcards).
  apply bind_raises. apply for_each_update_stops.
  - intros item Hin. rewrite forallb_forall in Hgood.
    destruct (decode_card_decodes item (tr ++ [EvRequest r]) (Hgood item Hin))
      as (item' & Hrun & _).
    now exists item'.
  - now apply decode_card_undecodable.
Qed.

(** When every item of the list either decodes or fails inside
    [json.loads], one failing item is enough for a decode error to reach the
    caller. *)
Lemma get_dynamics_decode_error_on_shaped_cards
    (self : User.t) (offset : Z) (need_top : bool) (tr : trace)
    (d : dict) (items : list pyval) :
  let r := dynamics_request self offset need_top in
  request_oracle tr r = inr (PDict d) ->
  dict_get d "cards" = Some (PList items) ->
  forallb (fun item => card_decodes item
                       || match undecodable item with
                          | Some _ => true
                          | None => false
                          end) items = true ->
  forallb card_decodes items = false ->
  exists doc,
    User.get_dynamics self offset need_top tr
    = (Raise (JSONDecodeError doc), tr ++ [EvRequest r]).
Proof.
  intros r Hreq Hcards Hshape Hsome.
  assert (Hsplit : exists good bad rest doc,
             items = good ++ bad :: rest /\
             forallb card_decodes good = true /\ undecodable bad = Some doc).
  { clear Hcards. induction items as [|item items IH]; [discriminate|].
    simpl in Hshape, Hsome. apply andb_prop in Hshape.
    destruct Hshape as [Hitem Hitems].
    destruct (card_decodes item) eqn:Hd.
    - destruct (IH Hitems Hsome) as (good & bad & rest & doc & -> & Hg & Hb).
      exists (item :: good), bad, rest, doc. simpl. now rewrite Hd.
    - destruct (undecodable item) as [doc|] eqn:Hu; [|discriminate].
      now exists [], item, items, doc. }
  destruct Hsplit as (good & bad & rest & doc & -> & Hgood & Hbad).
  exists doc.
  rewrite (get_dynamics_run self offset need_top tr d _ Hreq Hcards).
  apply bind_raises. apply for_each_update_stops.
  - intros item Hin. rewrite forallb_forall in Hgood.
    destruct (decode_card_decodes item (tr ++ [EvRequest r]) (Hgood item Hin))
      as (item' & Hrun & _).
    now exists item'.
  - now apply decode_card_undecodable.
Qed.

End DynamicsClaims.

(** ** del_channel_series *)

Section DeleteSeries.
Context `{Externals}.

(** The constructor on a legacy collection without snapshot, step by step. *)
Lemma series_init_run (uid id_ : Z) (credential : option Credential.t)
    (tr : trace) (text : string) (doc resp meta mid : pyval) :
  id_ <> -1 ->
  httpx_get_oracle tr (get_api "user" "channel_series" "info")
    [("series_id", PInt id_)] = inr text ->
  json_loads text = Some doc ->
  py_getitem doc "data" = Ok resp ->
  py_getitem resp "meta" = Ok meta ->
  py_getitem meta "mid" = Ok mid ->
  ChannelSeries.__init__ uid (Some SERIES) id_ credential PNone tr
  = (Ok (ChannelSeries.mk mid 0 id_ (User.__init__ mid credential)
           credential meta),
     tr ++ [series_info_fetch id_]).
Proof.
  intros Hid Hweb Hdoc Hdata Hmeta Hmid.
  unfold ChannelSeries.__init__.
  rewrite py_assert_holds by (apply negb_true_iff, Z.eqb_neq; exact Hid).
  unfold bind, ret, lift, httpx_get_text; simpl.
  rewrite Hweb; simpl. rewrite Hdoc; simpl.
  rewrite Hdata. rewrite Hmeta. rewrite Hmid. reflexivity.
Qed.

(** The page walk, by induction on what the gateway serves. *)
Lemma collect_aids_served (self_uid : pyval) (series_id : Z)
    (credential : Credential.t) (tr : trace) (pages : list Z)
    (aids_by_page : list (list pyval)) :
  pages_served self_uid series_id credential tr pages aids_by_page ->
  forall aids,
    collect_aids self_uid series_id credential pages aids tr
    = (Ok (aids ++ concat aids_by_page),
       tr ++ page_walk self_uid series_id credential pages).
Proof.
  induction 1 as [tr | tr page pages info page_aids rest Hreq Haids _ IH];
    intros aids; simpl.
  - now rewrite !app_nil_r.
  - unfold User.get_channel_videos_series. simpl User.uid. simpl User.credential.
    erewrite bind_run
      by (rewrite request_run;
          fold (page_request self_uid series_id credential page);
          rewrite Hreq; reflexivity).
    cbv beta. erewrite bind_lift by exact Haids.
    cbv beta. erewrite bind_lift by reflexivity.
    cbv beta. rewrite IH. now rewrite <- !app_assoc.
Qed.

(** [page_count] is the ceiling of [total / 20]. *)
Lemma page_count_ceiling (total : Z) :
  20 * (page_count total - 1) < total <= 20 * page_count total.
Proof.
  unfold page_count.
  pose proof (Z.div_mod total 20 ltac:(lia)) as Hdm.
  pose proof (Z.mod_pos_bound total 20 ltac:(lia)) as Hb.
  destruct (total mod 20 =? 0) eqn:E; cbn [negb].
  - apply Z.eqb_eq in E. lia.
  - apply Z.eqb_neq in E. lia.
Qed.

(** [range(1, n + 1)] counts 1, 2, ..., n. *)
Lemma py_range_from_one (n : Z) :
  py_range 1 (n + 1) = map Z.of_nat (seq 1 (Z.to_nat n)).
Proof.
  unfold py_range. replace (n + 1 - 1) with n by lia.
  generalize (Z.to_nat n) as k. intros k.
  rewrite <- seq_shift, map_map. apply map_ext. intros i. lia.
Qed.

Lemma page_walk_has_no_post (self_uid : pyval) (series_id : Z)
    (credential : Credential.t) (pages : list Z) :
  filter is_post (page_walk self_uid series_id credential pages) = [].
Proof.
  induction pages as [|page pages IH]; simpl; [reflexivity|exact IH].
Qed.

(** C3.  With both tokens present and a collection id, [del_channel_series]
    fetches the collection's metadata and reads its total, asks for the own
    uid, then requests the pages 1, 2, ..., ceil(total / 20) in this order
    with page size 20, and finally submits one deletion request whose
    ["aids"] is the comma-joined concatenation, in page order, of the aids of
    the pages.  The outcome of the call is the outcome of that request. *)
Theorem del_channel_series_walks_then_deletes
    (series_id : Z) (credential : Credential.t) (tr : trace)
    (text : string) (doc resp meta mid info self_uid : pyval) (total : Z)
    (aids_by_page : list (list pyval)) :
  let fetched := tr ++ [series_info_fetch series_id] in
  let known := fetched ++ [EvRequest (self_info_request credential)] in
  let pages := py_range 1 (page_count total + 1) in
  let walk := page_walk self_uid series_id credential pages in
  let deletion :=
    deletion_request self_uid series_id credential (concat aids_by_page) in
  Credential.has_sessdata credential = true ->
  Credential.has_bili_jct credential = true ->
  series_id <> -1 ->
  httpx_get_oracle tr (get_api "user" "channel_series" "info")
    [("series_id", PInt series_id)] = inr text ->
  json_loads text = Some doc ->
  py_getitem doc "data" = Ok resp ->
  py_getitem resp "meta" = Ok meta ->
  py_getitem meta "mid" = Ok mid ->
  py_getitem meta "total" = Ok (PInt total) ->
  request_oracle fetched (self_info_request credential) = inr info ->
  py_getitem info "mid" = Ok self_uid ->
  pages_served self_uid series_id credential known pages aids_by_page ->
  del_channel_series series_id credential tr
  = (answer (request_oracle (known ++ walk) deletion),
     known ++ walk ++ [EvRequest deletion]) /\
  pages = map Z.of_nat (seq 1 (Z.to_nat (page_count total))) /\
  20 * (page_count total - 1) < total <= 20 * page_count total /\
  length (filter is_post
            ([series_info_fetch series_id;
              EvRequest (self_info_request credential)]
             ++ walk ++ [EvRequest deletion])) = 1%nat /\
  req_data deletion
  = Some [("mid", self_uid); ("series_id", PInt series_id);
          ("aids", PStr (String.concat ","
                           (map py_str (concat aids_by_page))))].
Proof.
  intros fetched known pages walk deletion
         Hs Hb Hid Hweb Hdoc Hdata Hmeta Hmid Htotal Hinfo Huid Hserved.
  split; [|split; [apply py_range_from_one|split; [apply page_count_ceiling|]]].
  - unfold del_channel_series.
    unfold raise_for_no_sessdata, raise_for_no_bili_jct.
    rewrite raise_for_no_present by exact Hs.
    rewrite raise_for_no_present by exact Hb.
    erewrite bind_run
      by (eapply series_init_run; eassumption).
    cbv beta. simpl ChannelSeries.get_meta.
    erewrite bind_lift by exact Htotal.
    cbv beta. unfold get_self_info, raise_for_no_sessdata.
    erewrite bind_run
      by (rewrite raise_for_no_present by exact Hs;
          rewrite request_run; fold (self_info_request credential);
          fold fetched; rewrite Hinfo; reflexivity).
    cbv beta. erewrite bind_lift by exact Huid.
    cbv beta. simpl py_index. erewrite bind_lift by reflexivity.
    cbv beta. fold fetched. fold known. fold pages.
    erewrite bind_run by (apply collect_aids_served; exact Hserved).
    cbv beta. rewrite request_run. simpl app at 1.
    fold (deletion_request self_uid series_id credential (concat aids_by_page)).
    fold deletion. fold walk. now rewrite <- !app_assoc.
  - split; [|reflexivity].
    pose proof (page_walk_has_no_post self_uid series_id credential pages)
      as Hwalk.
    fold walk in Hwalk. clearbody walk.
    simpl. rewrite filter_app, Hwalk. reflexivity.
Qed.

End DeleteSeries.

(** ** Runs against the scripted service

    Each general statement above is exercised here on the reference
    environment, with every premise checked by evaluation. *)

Section Runs.
Import Remote.

#[local] Existing Instance Remote.env.

(** C1, an instance: [get_self_notes_info(1, 10, Credential())]. *)
Lemma notes_listing_refused_without_session :
  Credential.has_sessdata Credential.new = false /\
  asserts_hold (GetSelfNotesInfo 1 10) = true /\
  call (GetSelfNotesInfo 1 10) Credential.new []
  = (Raise (CredentialNoTokenException SESSDATA), []).
Proof.
  split; [reflexivity|]. split; [reflexivity|].
  exact (proj1 (session_token_checked_before_gateway
                  (GetSelfNotesInfo 1 10) Credential.new eq_refl)
               eq_refl []).
Defined.

(** C1 as stated fails on [get_self_notes_info(0, 10, Credential())]: the
    credential lacks the session token, yet the call raises
    [AssertionError], not the credential precondition error. *)
Lemma notes_listing_asserts_before_credential :
  Credential.has_sessdata Credential.new = false /\
  call (GetSelfNotesInfo 0 10) Credential.new []
  = (Raise AssertionError, []) /\
  ~ refused_before_network SESSDATA
      (call (GetSelfNotesInfo 0 10) Credential.new).
Proof.
  split; [reflexivity|]. split; [reflexivity|].
  intros Hrefused. specialize (Hrefused []). discriminate Hrefused.
Qed.

(** C2, an instance: user 1 has three channels. *)
Lemma channel_list_of_user_1 :
  let first := channel_list_request (user 1) (PInt 1) in
  let second := channel_list_request (user 1) (PInt 3) in
  let res := channel_list (Some (PInt 1)) (Some (PInt 1)) in
  request_oracle [] first = inr res /\
  reported_total res = Ok (PInt 3) /\
  1 < 3 /\
  User.get_channel_list (user 1) []
  = (Ok (channel_list (Some (PInt 1)) (Some (PInt 3))),
     [EvRequest first; EvSleep 500; EvRequest second]) /\
  gateway_calls (snd (User.get_channel_list (user 1) [])) = 2%nat.
Proof.
  intros first second res.
  split; [reflexivity|]. split; [reflexivity|]. split; [lia|].
  destruct (get_channel_list_probe_then_fetch (user 1) [] res 3)
    as (Hrun & Hcalls & _); [reflexivity|reflexivity|lia|].
  split; [exact Hrun|exact Hcalls].
Defined.

(** C10, an instance: user 2 has no channel. *)
Lemma channel_list_of_user_2 :
  let first := channel_list_request (user 2) (PInt 1) in
  let res := channel_list (Some (PInt 2)) (Some (PInt 1)) in
  request_oracle [] first = inr res /\
  reported_total res = Ok (PInt 0) /\
  User.get_channel_list (user 2) []
  = (Ok res, [EvRequest first; EvSleep 500; EvRequest first]).
Proof.
  intros first res.
  split; [reflexivity|]. split; [reflexivity|].
  destruct (get_channel_list_zero_total (user 2) [] res)
    as (Hrun & _); [reflexivity|reflexivity|].
  exact Hrun.
Defined.

(** C9, an instance: the signature's defaults, [ChannelSeries()]. *)
Lemma channel_series_defaults_fail :
  (-1 = -1 \/ Some SERIES = None) /\
  ChannelSeries.__init__ (-1) (Some SERIES) (-1) None PNone []
  = (Raise AssertionError, []).
Proof.
  split; [now left|].
  exact (proj1 (channel_series_asserts_id_and_variant
                  (-1) (Some SERIES) (-1) None PNone [])
               (or_introl eq_refl)).
Defined.

(** C6, an instance: the legacy collection 5 belongs to user 7. *)
Lemma series_5_belongs_to_user_7 :
  let meta := PDict [("series_id", PInt 5); ("mid", PInt 7); ("total", PInt 41)] in
  5 <> -1 /\
  httpx_get_oracle [] (get_api "user" "channel_series" "info")
    [("series_id", PInt 5)] = inr series_text /\
  json_loads series_text = Some (PDict [("data", PDict [("meta", meta)])]) /\
  exists series,
    ChannelSeries.__init__ (-1) (Some SERIES) 5 None PNone []
    = (Ok series, [series_info_fetch 5]) /\
    User.get_uid (ChannelSeries.owner series) = PInt 7.
Proof.
  intros meta.
  split; [lia|]. split; [reflexivity|]. split; [reflexivity|].
  destruct (legacy_owner_is_fetched_mid (-1) 5 None [] series_text
              (PDict [("data", PDict [("meta", meta)])])
              (PDict [("meta", meta)]) meta (PInt 7))
    as (series & Hrun & Huid & _); [lia|reflexivity..|].
  exists series. split; [exact Hrun|exact Huid].
Defined.

(** C7, an instance: a legacy and a modern collection of user 7. *)
Lemma sort_reaches_only_the_season :
  let legacy := ChannelSeries.mk (PInt 7) 0 5 (user 7) (Some login) PNone in
  let modern := ChannelSeries.mk (PInt 7) 1 6 (user 7) (Some login) PNone in
  ChannelSeries.is_new legacy = ChannelSeriesType_value SERIES /\
  ChannelSeries.is_new modern = ChannelSeriesType_value SEASON /\
  ChannelSeries.get_videos legacy DEFAULT 1 100 []
  = ChannelSeries.get_videos legacy CHANGE 1 100 [] /\
  exists r params,
    snd (ChannelSeries.get_videos modern CHANGE 1 100 []) = [EvRequest r] /\
    req_params r = Some params /\
    dict_get params "sort_reverse" = Some (PStr "true").
Proof.
  intros legacy modern.
  split; [reflexivity|]. split; [reflexivity|].
  split.
  - destruct (get_videos_sort_only_on_season legacy 1 100 []) as [Hlegacy _].
    destruct Hlegacy as [Hsame _]; [reflexivity|].
    exact (Hsame DEFAULT CHANGE).
  - destruct (get_videos_sort_only_on_season modern 1 100 []) as [_ Hmodern].
    apply Hmodern. reflexivity.
Defined.



(** C4, an instance: the feed of user 1, whose one card carries the text of
    the object [a:1] and the text of the empty object. *)
Lemma dynamics_of_user_1 :
  let r := dynamics_request (user 1) 0 false in
  let item := PDict [("card", PStr Reference.card_text);
                     ("extend_json", PStr "{}")] in
  request_oracle [] r = inr (Reference.feed [item]) /\
  dict_get [("cards", PList [item])] "cards" = Some (PList [item]) /\
  forallb card_decodes [item] = true /\
  json_loads Reference.card_text = Some (PDict [("a", PInt 1)]) /\
  json_loads "{}" = Some (PDict []) /\
  (exists d' items',
      User.get_dynamics (user 1) 0 false [] = (Ok (PDict d'), [EvRequest r]) /\
      dict_get d' "cards" = Some (PList items') /\
      Forall2 fields_decoded [item] items') /\
  User.get_dynamics (user 1) 0 false []
  = (Ok (Reference.feed [PDict [("card", PDict [("a", PInt 1)]);
                                ("extend_json", PDict [])]]),
     [EvRequest r]).
Proof.
  intros r item.
  split; [reflexivity|]. split; [reflexivity|]. split; [reflexivity|].
  split; [reflexivity|]. split; [reflexivity|].
  destruct (get_dynamics_decodes_card_fields (user 1) 0 false [])
    as [Hany Hone].
  split.
  - destruct (Hany [("cards", PList [item])] [item])
      as (d' & items' & Hrun & Hcards & _ & _ & Hrel);
      [reflexivity|reflexivity|reflexivity|].
    exists d', items'. split; [exact Hrun|]. split; [exact Hcards|exact Hrel].
  - apply Hone; reflexivity.
Defined.

(** C8 (amended), an instance: the feed of user 2, whose card decodes and
    whose [extend_json] is the text of an unclosed object. *)
Lemma dynamics_of_user_2 :
  let r := dynamics_request (user 2) 0 false in
  let item := PDict [("card", PStr Reference.card_text);
                     ("extend_json", PStr "{")] in
  request_oracle [] r = inr (PDict [("cards", PList ([] ++ item :: []))]) /\
  dict_get [("cards", PList ([] ++ item :: []))] "cards"
  = Some (PList ([] ++ item :: [])) /\
  forallb card_decodes [] = true /\
  undecodable item = Some "{" /\
  User.get_dynamics (user 2) 0 false []
  = (Raise (JSONDecodeError "{"), [EvRequest r]).
Proof.
  intros r item.
  split; [reflexivity|]. split; [reflexivity|]. split; [reflexivity|].
  split; [reflexivity|].
  apply (get_dynamics_decode_error_propagates (user 2) 0 false []
           [("cards", PList ([] ++ item :: []))] [] item [] "{");
    reflexivity.
Defined.

(** C8 as stated fails on the feed of user 3: its second item has a
    ["card"] that is no valid JSON, yet the call ends with the [KeyError] of
    the first item, which has no ["card"], and not with a decode error. *)
Lemma missing_field_hides_decode_error :
  let r := dynamics_request (user 3) 0 false in
  let bad := PDict [("card", PStr "{"); ("extend_json", PStr "{}")] in
  let items := [PDict [("extend_json", PStr "{}")]; bad] in
  request_oracle [] r = inr (Reference.feed items) /\
  In bad items /\
  dict_get [("card", PStr "{"); ("extend_json", PStr "{}")] "card"
  = Some (PStr "{") /\
  json_loads "{" = None /\
  User.get_dynamics (user 3) 0 false [] = (Raise (KeyError "card"), [EvRequest r]) /\
  ~ (exists doc,
        fst (User.get_dynamics (user 3) 0 false []) = Raise (JSONDecodeError doc)).
Proof.
  intros r bad items.
  split; [reflexivity|]. split; [right; now left|].
  split; [reflexivity|]. split; [reflexivity|]. split; [reflexivity|].
  intros [doc Hdoc]. discriminate Hdoc.
Qed.

(** C3, an instance: deleting the legacy collection 5, whose 41 videos fill
    three pages. *)
Lemma deleting_series_5 :
  let meta := PDict [("series_id", PInt 5); ("mid", PInt 7); ("total", PInt 41)] in
  let known := [series_info_fetch 5; EvRequest (self_info_request login)] in
  let walk := page_walk (PInt 7) 5 login [1; 2; 3] in
  let aids_by_page := [page_aids 1; page_aids 2; page_aids 3] in
  let deletion := deletion_request (PInt 7) 5 login (concat aids_by_page) in
  Credential.has_sessdata login = true /\
  Credential.has_bili_jct login = true /\
  5 <> -1 /\
  httpx_get_oracle [] (get_api "user" "channel_series" "info")
    [("series_id", PInt 5)] = inr series_text /\
  json_loads series_text = Some (PDict [("data", PDict [("meta", meta)])]) /\
  request_oracle [series_info_fetch 5] (self_info_request login)
  = inr (PDict [("mid", PInt 7)]) /\
  py_range 1 (page_count 41 + 1) = [1; 2; 3] /\
  pages_served (PInt 7) 5 login known [1; 2; 3] aids_by_page /\
  del_channel_series 5 login []
  = (Ok (PDict []), known ++ walk ++ [EvRequest deletion]) /\
  req_data deletion
  = Some [("mid", PInt 7); ("series_id", PInt 5);
          ("aids", PStr (String.concat ","
                           (map Reference.str (map PInt (py_range 1 42)))))].
Proof.
  intros meta known walk aids_by_page deletion.
  assert (Hserved : pages_served (PInt 7) 5 login known [1; 2; 3] aids_by_page).
  { repeat (eapply served_page; [reflexivity|reflexivity|]). apply served_none. }
  split; [reflexivity|]. split; [reflexivity|]. split; [lia|].
  split; [reflexivity|]. split; [reflexivity|]. split; [reflexivity|].
  split; [reflexivity|]. split; [exact Hserved|].
  destruct (del_channel_series_walks_then_deletes 5 login [] series_text
              (PDict [("data", PDict [("meta", meta)])])
              (PDict [("meta", meta)]) meta (PInt 7)
              (PDict [("mid", PInt 7)]) (PInt 7) 41 aids_by_page)
    as (Hrun & _ & _ & _ & Hdata);
    [reflexivity|reflexivity|lia|reflexivity..|exact Hserved|].
  split; [exact Hrun|exact Hdata].
Defined.

End Runs.

(** ** Further properties of the module *)

Section Tokens.
Context `{Externals}.

(** X1.  Each operation that needs the session token checks its tokens in a
    fixed order (session token first, then the cross-site token of a write,
    or the user-id token of [get_self_coins]); once its assertions hold, the
    first token the credential lacks is the one the precondition error
    names, and nothing has reached the network. *)
Theorem first_missing_token_is_reported
    (op : session_op) (c : Credential.t) (tok : token) :
  asserts_hold op = true ->
  first_missing c (needs op) = Some tok ->
  refused_before_network tok (call op c).
Proof.
  intros Ha Hmiss tr.
  destruct (Credential.has SESSDATA c) eqn:Hs;
    destruct (Credential.has BILI_JCT c) eqn:Hb;
    destruct (Credential.has DEDEUSERID c) eqn:Hd;
    destruct op;
    unfold first_missing, needs in Hmiss; cbn [find] in Hmiss;
    rewrite ?Hs, ?Hb, ?Hd in Hmiss; cbn [negb] in Hmiss;
    try discriminate; injection Hmiss as <-;
    cbn [call asserts_hold] in *;
    try (apply andb_prop in Ha; destruct Ha as [Ha1 Ha2]);
    unfold get_self_notes_info, get_self_public_notes_info;
    rewrite ?py_assert_holds by assumption;
    first
      [ apply raise_for_no_absent; assumption
      | (etransitivity; [apply raise_for_no_present; eassumption|]);
        apply raise_for_no_absent; assumption ].
Qed.

(** X2.  [get_up_stat] checks the cross-site token and nothing else: without
    it the call stops before the network, with it the call makes its one
    request whether or not the credential holds a session token. *)
Theorem get_up_stat_checks_only_bili_jct (self : User.t) (tr : trace) :
  let r := mkRequest "GET" (get_api "user" "info" "upstat")
             (Some [("mid", User.uid self)]) None
             (Some (User.credential self)) in
  (Credential.has_bili_jct (User.credential self) = false ->
   User.get_up_stat self tr
   = (Raise (CredentialNoTokenException BILI_JCT), tr)) /\
  (Credential.has_bili_jct (User.credential self) = true ->
   User.get_up_stat self tr
   = (answer (request_oracle tr r), tr ++ [EvRequest r])).
Proof.
  intros r. unfold User.get_up_stat, raise_for_no_bili_jct. split; intros Hb.
  - now apply raise_for_no_absent.
  - rewrite raise_for_no_present by exact Hb. reflexivity.
Qed.

End Tokens.

Section Reads.
Context `{Externals}.

(** X3.  The nineteen reads of [User] that check no token all behave alike:
    one [GET] through the gateway, whose outcome is the outcome of the call,
    whatever the credential holds.  All forward the credential except
    [get_cheese]; all send the user's uid except [top_followers]. *)
Theorem public_reads_make_one_request
    (op : public_read) (self : User.t) (tr : trace) :
  exists r params,
    read op self tr = (answer (request_oracle tr r), tr ++ [EvRequest r]) /\
    req_method r = "GET" /\
    req_data r = None /\
    req_params r = Some params /\
    req_credential r
    = (if forwards_credential op then Some (User.credential self) else None) /\
    (sends_uid op = true -> In (User.uid self) (map snd params)).
Proof.
  destruct op; simpl;
    (eexists; eexists; split; [apply request_run|];
     repeat split; simpl; auto; discriminate).
Qed.

(** X4.  [top_followers] treats [since = 0] like no [since] at all, sends
    [t = since] for any other value, and never looks at the user's uid: two
    users with the same credential make the same call. *)
Theorem top_followers_since_and_uid
    (self : User.t) (tr : trace) :
  UserReads.top_followers self (Some 0) tr
  = UserReads.top_followers self None tr /\
  (forall other since,
      User.credential other = User.credential self ->
      UserReads.top_followers other since tr
      = UserReads.top_followers self since tr) /\
  (forall t, t <> 0 ->
      snd (UserReads.top_followers self (Some t) tr)
      = tr ++ [EvRequest
                 (mkRequest "GET" (get_api "user" "info" "top_followers")
                    (Some [("t", PInt t)]) None
                    (Some (User.credential self)))]) /\
  snd (UserReads.top_followers self None tr)
  = tr ++ [EvRequest
             (mkRequest "GET" (get_api "user" "info" "top_followers")
                (Some []) None (Some (User.credential self)))].
Proof.
  split; [reflexivity|]. split; [|split; [|reflexivity]].
  - intros other since Hc. unfold UserReads.top_followers. now rewrite Hc.
  - intros t Ht. unfold UserReads.top_followers.
    destruct (t =? 0) eqn:E; [apply Z.eqb_eq in E; contradiction|].
    reflexivity.
Qed.

(** X5.  The self-info cache.  With a value in the cache, [__get_self_info]
    returns it without any event and without looking at the credential.
    After a first call that fetched a value other than [None], every later
    call on the updated object is such a hit. *)
Theorem self_info_is_fetched_once
    (self : User.t) (tr : trace) (info : pyval) :
  (User.self_info self <> PNone ->
   UserReads.__get_self_info self tr = (Ok (User.self_info self, self), tr)) /\
  (User.self_info self = PNone ->
   Credential.has_sessdata (User.credential self) = true ->
   request_oracle tr (self_info_request (User.credential self)) = inr info ->
   info <> PNone ->
   exists self',
     UserReads.__get_self_info self tr
     = (Ok (info, self'),
        tr ++ [EvRequest (self_info_request (User.credential self))]) /\
     User.uid self' = User.uid self /\
     User.credential self' = User.credential self /\
     forall tr',
       UserReads.__get_self_info self' tr' = (Ok (info, self'), tr')).
Proof.
  split.
  - intros Hcached. unfold UserReads.__get_self_info.
    destruct (User.self_info self); try reflexivity. contradiction.
  - intros Hempty Hs Hreq Hinfo.
    exists (User.mk (User.uid self) (User.credential self) info).
    split; [|split; [reflexivity|split; [reflexivity|]]].
    + unfold UserReads.__get_self_info. rewrite Hempty.
      unfold get_self_info, raise_for_no_sessdata.
      erewrite bind_run
        by (rewrite raise_for_no_present by exact Hs; rewrite request_run;
            fold (self_info_request (User.credential self));
            rewrite Hreq; reflexivity).
      reflexivity.
    + intros tr'. unfold UserReads.__get_self_info. simpl.
      destruct info; try reflexivity. contradiction.
Qed.

(** X6.  What the cache does not keep: a fetch answered with [None] stores
    [None], which reads as an empty cache, so the next call goes to the
    gateway again. *)
Theorem self_info_none_is_not_cached
    (self : User.t) (tr : trace) :
  User.self_info self = PNone ->
  Credential.has_sessdata (User.credential self) = true ->
  request_oracle tr (self_info_request (User.credential self)) = inr PNone ->
  exists self',
    UserReads.__get_self_info self tr
    = (Ok (PNone, self'),
       tr ++ [EvRequest (self_info_request (User.credential self))]) /\
    forall tr',
      snd (UserReads.__get_self_info self' tr')
      = tr' ++ [EvRequest (self_info_request (User.credential self))].
Proof.
  intros Hempty Hs Hreq.
  exists (User.mk (User.uid self) (User.credential self) PNone). split.
  - unfold UserReads.__get_self_info. rewrite Hempty.
    unfold get_self_info, raise_for_no_sessdata.
    erewrite bind_run
      by (rewrite raise_for_no_present by exact Hs; rewrite request_run;
          fold (self_info_request (User.credential self));
          rewrite Hreq; reflexivity).
    reflexivity.
  - intros tr'. unfold UserReads.__get_self_info. simpl.
    unfold get_self_info, raise_for_no_sessdata, bind.
    unfold raise_for_no. unfold Credential.has_sessdata in Hs. rewrite Hs.
    unfold ret. rewrite request_run.
    fold (self_info_request (User.credential self)).
    destruct (answer _); reflexivity.
Qed.

End Reads.

Section FavTag.
Context `{Externals} `{Session} `{DecoderLimits}.

Lemma session_request_run (method url : string) (params cookies : dict)
    (follow : bool) (tr : trace) :
  session_request method url params cookies follow tr
  = (answer (session_oracle tr method url params cookies follow),
     tr ++ [EvHttpxGet url params (Some cookies)]).
Proof. reflexivity. Qed.

(** X7.  Once the HTTP call of [get_user_fav_tag] has been answered, the
    only failure of [json.loads] the operation converts is the decode error:
    a text that raises [JSONDecodeError] becomes the status dict that quotes
    the status code, while an exception of any other class reaches the
    caller.  A decoded value that is falsy (an empty object or list, 0,
    [None], ...) becomes the ["Failed"] status dict, anything else is
    returned as decoded; so whatever the operation returns is truthy.  The
    call always carries the cookie [Domain = .bilibili.com]. *)
Theorem get_user_fav_tag_converts_decode_errors_only
    (self : User.t) (tr : trace) (text : string) (status_code : Z) :
  session_oracle tr "GET" (get_api "user" "info" "user_tag")
    [("mid", User.uid self)] (fav_tag_cookies self) true
  = inr (text, status_code) ->
  let run := UserReads.get_user_fav_tag self tr in
  snd run = tr ++ [fav_tag_fetch self] /\
  dict_get (fav_tag_cookies self) "Domain" = Some (PStr ".bilibili.com") /\
  (forall doc, UserReads.loads_text text = Raise (JSONDecodeError doc) ->
               fst run = Ok (UserReads.undecoded status_code)) /\
  (forall e, UserReads.loads_text text = Raise e ->
             is_JSONDecodeError e = false -> fst run = Raise e) /\
  (forall x, UserReads.loads_text text = Ok x ->
             fst run = Ok (if py_truthy x then x else UserReads.failed)) /\
  (forall v, fst run = Ok v -> py_truthy v = true).
Proof.
  intros Hans run. subst run.
  unfold UserReads.get_user_fav_tag.
  fold (fav_tag_cookies self).
  erewrite bind_run
    by (rewrite session_request_run; rewrite Hans; reflexivity).
  cbv beta. simpl fst. simpl snd. fold (fav_tag_fetch self).
  unfold UserReads.loads_or_status, bind, lift, ret.
  split.
  { destruct (UserReads.loads_text text) as [x|[]]; reflexivity. }
  split; [apply dict_get_set_same|].
  split; [intros doc ->; reflexivity|].
  split.
  { intros e -> He. destruct e; try reflexivity. discriminate. }
  split.
  { intros x ->. simpl. destruct (py_truthy x); reflexivity. }
  intros v.
  destruct (UserReads.loads_text text) as [x|[]]; simpl;
    try discriminate;
    try (destruct (py_truthy x) eqn:E; simpl; intros [= <-];
         [exact E|reflexivity]).
  intros [= <-]. reflexivity.
Qed.

End FavTag.

Section SessionReads.
Context `{Externals} `{Session}.

(** X8.  [get_all_followings], in contrast, lets every failure through: a
    text that is not JSON raises the decode error, a payload without
    ["card"] or a card without ["attentions"] raises [KeyError]; otherwise
    the result is [data["card"]["attentions"]].  Its cookies are the
    credential's, with no [Domain] added. *)
Theorem get_all_followings_outcomes
    (self : User.t) (tr : trace) (text : string) (status_code : Z) :
  session_oracle tr "GET" (get_api "user" "info" "all_followings")
    [("mid", User.uid self)] (get_cookies (User.credential self)) false
  = inr (text, status_code) ->
  (json_loads text = None ->
   UserReads.get_all_followings self tr
   = (Raise (JSONDecodeError text), tr ++ [followings_fetch self])) /\
  (forall d, json_loads text = Some (PDict d) ->
     dict_get d "card" = None ->
     UserReads.get_all_followings self tr
     = (Raise (KeyError "card"), tr ++ [followings_fetch self])) /\
  (forall d card, json_loads text = Some (PDict d) ->
     dict_get d "card" = Some card ->
     UserReads.get_all_followings self tr
     = (py_getitem card "attentions", tr ++ [followings_fetch self])).
Proof.
  intros Hans.
  unfold UserReads.get_all_followings.
  erewrite bind_run
    by (rewrite session_request_run; rewrite Hans; reflexivity).
  cbv beta. simpl fst. fold (followings_fetch self).
  unfold bind, lift, py_json_loads, py_getitem.
  repeat split.
  - intros ->. reflexivity.
  - intros d -> ->. reflexivity.
  - intros d card -> ->. destruct card; reflexivity.
Qed.

End SessionReads.

Section MoreChannelSeries.
Context `{Externals}.

(** X9.  Constructing a modern collection from its id alone: one fetch of
    the season info, no gateway call; the metadata is [data["info"]] with
    [data["upper"]["mid"]] stored under ["mid"], and the owner is the user
    with that uid, whatever uid the caller passed. *)
Theorem season_owner_is_upper_mid
    (uid id_ : Z) (credential : option Credential.t) (tr : trace)
    (text : string) (doc resp upper mid : pyval) (info : dict) :
  id_ <> -1 ->
  httpx_get_oracle tr (get_api "user" "channel_series" "season_info")
    [("season_id", PInt id_)] = inr text ->
  json_loads text = Some doc ->
  py_getitem doc "data" = Ok resp ->
  py_getitem resp "info" = Ok (PDict info) ->
  py_getitem resp "upper" = Ok upper ->
  py_getitem upper "mid" = Ok mid ->
  exists series,
    ChannelSeries.__init__ uid (Some SEASON) id_ credential PNone tr
    = (Ok series, tr ++ [season_info_fetch id_]) /\
    ChannelSeries.owner series = User.__init__ mid credential /\
    ChannelSeries.get_meta series = PDict (dict_set info "mid" mid) /\
    dict_get (dict_set info "mid" mid) "mid" = Some mid /\
    (forall k, k <> "mid" ->
               dict_get (dict_set info "mid" mid) k = dict_get info k).
Proof.
  intros Hid Hweb Hdoc Hdata Hinfo Hupper Hmid.
  eexists. split.
  { unfold ChannelSeries.__init__.
    rewrite py_assert_holds by (apply negb_true_iff, Z.eqb_neq; exact Hid).
    unfold bind, ret, lift, httpx_get_text; simpl.
    rewrite Hweb; simpl. rewrite Hdoc; simpl.
    rewrite Hdata, Hinfo, Hupper, Hmid. simpl.
    rewrite dict_get_set_same. reflexivity. }
  simpl. split; [reflexivity|]. split; [reflexivity|].
  split; [apply dict_get_set_same|].
  intros k Hk. apply dict_get_set_other. congruence.
Qed.

(** X10.  What the constructor does to the network once its assertions
    pass: nothing when a snapshot is given, exactly one [httpx.get] without
    cookies when none is.  It never calls the gateway, in any run.  With a
    snapshot the object keeps the caller's uid and the snapshot as they
    are. *)
Theorem constructor_fetches_at_most_once
    (uid : Z) (type_ : option ChannelSeriesType) (id_ : Z)
    (credential : option Credential.t) (meta : pyval) (tr : trace) :
  (meta <> PNone -> id_ <> -1 -> type_ <> None ->
   exists ty,
     type_ = Some ty /\
     ChannelSeries.__init__ uid type_ id_ credential meta tr
     = (Ok (ChannelSeries.mk (PInt uid) (ChannelSeriesType_value ty) id_
              (User.__init__ (PInt uid) credential) credential meta), tr)) /\
  (meta = PNone -> id_ <> -1 -> type_ <> None ->
   exists url key,
     snd (ChannelSeries.__init__ uid type_ id_ credential meta tr)
     = tr ++ [EvHttpxGet url [(key, PInt id_)] None]) /\
  gateway_calls (snd (ChannelSeries.__init__ uid type_ id_ credential meta tr))
  = gateway_calls tr.
Proof.
  assert (Hfetch : meta = PNone -> id_ <> -1 -> type_ <> None ->
                   exists url key,
                     snd (ChannelSeries.__init__ uid type_ id_ credential meta tr)
                     = tr ++ [EvHttpxGet url [(key, PInt id_)] None]).
  { intros -> Hid Hty. destruct type_ as [ty|]; [|contradiction].
    unfold ChannelSeries.__init__.
    rewrite py_assert_holds by (apply negb_true_iff, Z.eqb_neq; exact Hid).
    destruct ty; simpl; do 2 eexists;
      unfold bind, ret, lift, httpx_get_text; simpl;
      repeat match goal with
             | |- context [match ?r with Ok _ => _ | Raise _ => _ end] =>
                 destruct r; simpl
             end; reflexivity. }
  assert (Hsnap : meta <> PNone -> id_ <> -1 -> type_ <> None ->
                  exists ty,
                    type_ = Some ty /\
                    ChannelSeries.__init__ uid type_ id_ credential meta tr
                    = (Ok (ChannelSeries.mk (PInt uid)
                             (ChannelSeriesType_value ty) id_
                             (User.__init__ (PInt uid) credential)
                             credential meta), tr)).
  { intros Hmeta Hid Hty. destruct type_ as [ty|]; [|contradiction].
    exists ty. split; [reflexivity|].
    unfold ChannelSeries.__init__.
    rewrite py_assert_holds by (apply negb_true_iff, Z.eqb_neq; exact Hid).
    destruct meta; try reflexivity. contradiction. }
  split; [exact Hsnap|]. split; [exact Hfetch|].
  destruct (Z.eq_dec id_ (-1)) as [Hid|Hid].
  { subst. reflexivity. }
  destruct type_ as [ty|].
  2:{ unfold ChannelSeries.__init__.
      rewrite py_assert_holds by (apply negb_true_iff, Z.eqb_neq; exact Hid).
      reflexivity. }
  destruct meta;
    try (destruct Hsnap as (ty' & _ & ->);
         [discriminate|exact Hid|discriminate|reflexivity]).
  destruct Hfetch as (url & key & ->); [reflexivity|exact Hid|discriminate|].
  now rewrite gateway_calls_app, Nat.add_0_r.
Qed.

(** X11.  A metadata fetch that fails is fatal to the construction: when the
    HTTP call raises, or its text is not JSON, or the document has no
    ["data"], the constructor raises that error after its one fetch and no
    object exists. *)
Theorem constructor_fails_with_its_fetch
    (uid : Z) (ty : ChannelSeriesType) (id_ : Z)
    (credential : option Credential.t) (tr : trace) :
  id_ <> -1 ->
  let url := if ChannelSeries.truthy (ChannelSeriesType_value ty)
             then get_api "user" "channel_series" "season_info"
             else get_api "user" "channel_series" "info" in
  let key := if ChannelSeries.truthy (ChannelSeriesType_value ty)
             then "season_id" else "series_id" in
  let fetch := EvHttpxGet url [(key, PInt id_)] None in
  let run := ChannelSeries.__init__ uid (Some ty) id_ credential PNone tr in
  (forall e, httpx_get_oracle tr url [(key, PInt id_)] = inl e ->
             run = (Raise e, tr ++ [fetch])) /\
  (forall text, httpx_get_oracle tr url [(key, PInt id_)] = inr text ->
                json_loads text = None ->
                run = (Raise (JSONDecodeError text), tr ++ [fetch])) /\
  (forall text d, httpx_get_oracle tr url [(key, PInt id_)] = inr text ->
                  json_loads text = Some (PDict d) ->
                  dict_get d "data" = None ->
                  run = (Raise (KeyError "data"), tr ++ [fetch])).
Proof.
  intros Hid url key fetch run. subst run.
  unfold ChannelSeries.__init__.
  rewrite py_assert_holds by (apply negb_true_iff, Z.eqb_neq; exact Hid).
  destruct ty; simpl in *; subst url key fetch;
    unfold bind, ret, lift, httpx_get_text; simpl;
    (repeat split;
     [ intros e ->; reflexivity
     | intros text -> Hdoc; simpl; rewrite Hdoc; reflexivity
     | intros text d -> Hdoc Hdata; simpl; rewrite Hdoc; simpl;
       rewrite Hdata; reflexivity ]).
Qed.

End MoreChannelSeries.

Section MoreChannelList.
Context `{Externals}.

(** X12.  [get_channel_list] with a probe that brings no total.  When the
    probe raises, or its payload lacks [items_lists], [page] or [total], the
    call ends with that error after the one request: it neither sleeps nor
    asks again. *)
Theorem get_channel_list_stops_after_failed_probe
    (self : User.t) (tr : trace) (e : exn) :
  let first := channel_list_request self (PInt 1) in
  (request_oracle tr first = inl e \/
   exists res, request_oracle tr first = inr res /\
               reported_total res = Raise e) ->
  User.get_channel_list self tr = (Raise e, tr ++ [EvRequest first]).
Proof.
  intros first [Hfail | (res & Hres & Htotal)]; unfold User.get_channel_list.
  - apply bind_raises. rewrite request_run.
    fold (channel_list_request self (PInt 1)). fold first.
    now rewrite Hfail.
  - erewrite bind_run
      by (rewrite request_run; fold (channel_list_request self (PInt 1));
          fold first; rewrite Hres; reflexivity).
    cbv beta. unfold reported_total in Htotal. unfold bind, lift.
    destruct (py_getitem res "items_lists") as [items_lists|];
      [|now injection Htotal as <-].
    destruct (py_getitem items_lists "page") as [page|];
      [|now injection Htotal as <-].
    now rewrite Htotal.
Qed.

(** X13.  The second request of [get_channel_list] never asks for a page
    size of zero: a reported total that equals 0 in Python's sense (0, 0.0 or
    [False]) is replaced by 1, and every other value is sent as it is. *)
Theorem get_channel_list_never_asks_for_zero
    (self : User.t) (tr : trace) (res total : pyval) :
  request_oracle tr (channel_list_request self (PInt 1)) = inr res ->
  reported_total res = Ok total ->
  exists size,
    snd (User.get_channel_list self tr)
    = tr ++ [EvRequest (channel_list_request self (PInt 1)); EvSleep 500;
             EvRequest (channel_list_request self size)] /\
    py_eq_zero size = false /\
    (py_eq_zero total = true -> size = PInt 1) /\
    (py_eq_zero total = false -> size = total).
Proof.
  intros Hfirst Htotal.
  exists (if py_eq_zero total then PInt 1 else total).
  rewrite (get_channel_list_run self tr res total Hfirst Htotal).
  split; [reflexivity|].
  destruct (py_eq_zero total) eqn:E; repeat split; congruence.
Qed.

End MoreChannelList.

Section MoreDynamics.
Context `{Externals}.

Lemma dict_set_same_value (d : dict) (k : string) (v : pyval) :
  dict_get d k = Some v -> dict_set d k v = d.
Proof.
  induction d as [|[k' v'] d IH]; simpl; [discriminate|].
  destruct (String.eqb k k') eqn:E.
  - apply String.eqb_eq in E. subst. now intros [= ->].
  - intros Hget. now rewrite IH.
Qed.

Lemma dict_get_none_no_key (d : dict) (k : string) :
  dict_get d k = None -> existsb (String.eqb k) (dict_keys d) = false.
Proof.
  unfold dict_keys. induction d as [|[k' v'] d IH]; [reflexivity|].
  cbn [dict_get map fst existsb].
  destruct (String.eqb k k'); [discriminate|exact IH].
Qed.

(** X14.  A dynamics payload that has nothing to decode comes back as it
    is: a dict without the key ["cards"], or one whose ["cards"] is an empty
    list. *)
Theorem get_dynamics_passes_cardless_payload
    (self : User.t) (offset : Z) (need_top : bool) (tr : trace) (d : dict) :
  let r := dynamics_request self offset need_top in
  request_oracle tr r = inr (PDict d) ->
  dict_get d "cards" = None \/ dict_get d "cards" = Some (PList []) ->
  User.get_dynamics self offset need_top tr = (Ok (PDict d), tr ++ [EvRequest r]).
Proof.
  intros r Hreq [Hnone | Hempty].
  - unfold User.get_dynamics.
    erewrite bind_run
      by (rewrite request_run; fold (dynamics_request self offset need_top);
          fold r; rewrite Hreq; reflexivity).
    cbv beta. unfold py_contains.
    rewrite (dict_get_none_no_key _ _ Hnone). reflexivity.
  - rewrite (get_dynamics_run self offset need_top tr d [] Hreq Hempty).
    simpl. unfold bind, ret. simpl.
    now rewrite (dict_set_same_value _ _ _ Hempty).
Qed.

(** X15.  What [get_dynamics] does with a payload that is no container, such
    as [None], a number or a boolean: the test for ["cards"] raises
    [TypeError].  An exception of the gateway reaches the caller as it
    is. *)
Theorem get_dynamics_on_unusable_answer
    (self : User.t) (offset : Z) (need_top : bool) (tr : trace) :
  let r := dynamics_request self offset need_top in
  (forall e, request_oracle tr r = inl e ->
     User.get_dynamics self offset need_top tr = (Raise e, tr ++ [EvRequest r])) /\
  (forall data, request_oracle tr r = inr data ->
     match data with
     | PNone | PBool _ | PInt _ | PFloat _ => True
     | _ => False
     end ->
     User.get_dynamics self offset need_top tr
     = (Raise TypeError, tr ++ [EvRequest r])).
Proof.
  intros r. split.
  - intros e He. unfold User.get_dynamics. apply bind_raises.
    rewrite request_run. fold (dynamics_request self offset need_top).
    fold r. now rewrite He.
  - intros data Hreq Hshape. unfold User.get_dynamics.
    erewrite bind_run
      by (rewrite request_run; fold (dynamics_request self offset need_top);
          fold r; rewrite Hreq; reflexivity).
    destruct data; try contradiction; reflexivity.
Qed.

End MoreDynamics.

Section MoreNickname.
Context `{Externals}.

(** X16.  In every run [check_nickname] makes exactly one gateway call, sends
    no credential with it, and never raises a [ResponseCodeException]. *)
Theorem check_nickname_never_raises_response_code
    (nick_name : string) (tr : trace) :
  snd (check_nickname nick_name tr)
  = tr ++ [EvRequest (nickname_request nick_name)] /\
  req_credential (nickname_request nick_name) = None /\
  forall code msg,
    fst (check_nickname nick_name tr) <> Raise (ResponseCodeException code msg).
Proof.
  unfold check_nickname, try_except_else. rewrite request_run.
  fold (nickname_request nick_name).
  destruct (request_oracle tr (nickname_request nick_name)) as [e|v]; simpl.
  - destruct e; simpl; repeat split; intros; discriminate.
  - repeat split; intros; discriminate.
Qed.

End MoreNickname.

Section Channels.
Context `{Externals}.

Lemma silent_ret {A} (a : A) : silent (ret a).
Proof. intros tr. reflexivity. Qed.

Lemma silent_raise {A} (e : exn) : silent (@raise A e).
Proof. intros tr. reflexivity. Qed.

Lemma silent_lift {A} (r : result A) : silent (lift r).
Proof. intros tr. reflexivity. Qed.

Lemma silent_bind {A B} (m : M A) (k : A -> M B) :
  silent m -> (forall a, silent (k a)) -> silent (bind m k).
Proof.
  intros Hm Hk tr. unfold bind. specialize (Hm tr).
  destruct (m tr) as [[a|e] tr1]; simpl in Hm; subst tr1.
  - apply Hk.
  - reflexivity.
Qed.

Lemma silent_for_each {A B} (body : A -> M B) (xs : list A) :
  (forall x, silent (body x)) -> silent (for_each_update body xs).
Proof.
  intros Hbody. induction xs as [|x xs IH]; simpl.
  - apply silent_ret.
  - apply silent_bind; [apply Hbody|]. intros y.
    apply silent_bind; [exact IH|]. intros ys. apply silent_ret.
Qed.

(** What follows a computation does not change its trace when it is
    silent. *)
Lemma bind_silent_tail {A B} (m : M A) (k : A -> M B) (tr : trace) :
  (forall a, silent (k a)) -> snd (bind m k tr) = snd (m tr).
Proof.
  intros Hk. unfold bind. destruct (m tr) as [[a|e] tr1]; simpl.
  - apply Hk.
  - reflexivity.
Qed.

(** The constructor on untyped arguments is the typed one on integers. *)
Lemma untyped_constructor_agrees
    (uid : Z) (type_ : option ChannelSeriesType) (id_ : Z)
    (credential : option Credential.t) (meta : pyval) (tr : trace) :
  ChannelSeriesAny.__init__ (PInt uid) type_ (PInt id_) credential meta tr
  = (map_result ChannelSeriesAny.of_typed
       (fst (ChannelSeries.__init__ uid type_ id_ credential meta tr)),
     snd (ChannelSeries.__init__ uid type_ id_ credential meta tr)).
Proof.
  unfold ChannelSeriesAny.__init__, ChannelSeries.__init__.
  simpl py_ne_minus_one.
  destruct (negb (id_ =? -1)); [|reflexivity].
  rewrite !py_assert_holds by reflexivity.
  destruct type_ as [ty|]; [|reflexivity].
  destruct meta; try reflexivity.
  destruct ty; unfold bind, ret, lift, httpx_get_text; simpl;
    repeat match goal with
           | |- context [match ?r with Ok _ => _ | Raise _ => _ end] =>
               destruct r; simpl; try reflexivity
           end.
Qed.

Lemma channel_of_silent (self : User.t) (type_ : ChannelSeriesType)
    (key : string) (item : pyval) :
  silent (channel_of self type_ key item).
Proof.
  intros tr. unfold channel_of, bind, lift.
  destruct (py_getitem item "meta") as [item_meta|]; [|reflexivity].
  destruct item_meta; try reflexivity.
  unfold py_getitem at 1.
  destruct (dict_get d key) as [id_|]; [|reflexivity].
  unfold ChannelSeriesAny.__init__, bind, py_assert.
  destruct (py_ne_minus_one id_); reflexivity.
Qed.

Lemma channel_of_listable (self : User.t) (type_ : ChannelSeriesType)
    (key : string) (item : pyval) (tr : trace) :
  listable key item = true ->
  channel_of self type_ key item tr = (Ok (listed self type_ key item), tr).
Proof.
  unfold listable, listed, channel_of, bind, lift.
  destruct (py_getitem item "meta") as [item_meta|]; [|discriminate].
  destruct item_meta; try discriminate.
  unfold py_getitem at 1 2 3.
  destruct (dict_get d key) as [id_|]; [|discriminate].
  intros Hid. unfold ChannelSeriesAny.__init__, bind, py_assert.
  rewrite Hid. reflexivity.
Qed.

Lemma for_each_update_map {A B} (body : A -> M B) (f : A -> B)
    (xs : list A) (tr : trace) :
  (forall x, In x xs -> body x tr = (Ok (f x), tr)) ->
  for_each_update body xs tr = (Ok (map f xs), tr).
Proof.
  induction xs as [|x xs IH]; intros Hall; simpl; [reflexivity|].
  erewrite bind_run by (apply Hall; now left).
  erewrite bind_run by (apply IH; intros; apply Hall; now right).
  reflexivity.
Qed.

(** X17.  [get_channels] adds nothing to the network traffic of
    [get_channel_list], in any run: every object is built from the snapshot
    in the listing, so no metadata is fetched, whatever the payload holds. *)
Theorem get_channels_fetches_no_metadata (self : User.t) (tr : trace) :
  snd (get_channels self tr) = snd (User.get_channel_list self tr).
Proof.
  unfold get_channels. apply bind_silent_tail. intros channel_data.
  repeat first
    [ apply silent_ret
    | apply silent_lift
    | apply silent_for_each; intros; apply channel_of_silent
    | apply silent_bind; [|intros] ].
Qed.

(** X18.  On a listing whose items all carry a ["meta"] with an id other
    than -1, [get_channels] returns one object per item, the modern
    collections first and the legacy ones after them, each in the order of
    the payload; every object is owned by the user asked about and keeps its
    item's ["meta"] as snapshot. *)
Theorem get_channels_lists_seasons_then_series
    (self : User.t) (tr tr' : trace)
    (channel_data items_lists : pyval) (seasons series : list pyval) :
  User.get_channel_list self tr = (Ok channel_data, tr') ->
  py_getitem channel_data "items_lists" = Ok items_lists ->
  py_getitem items_lists "seasons_list" = Ok (PList seasons) ->
  py_getitem items_lists "series_list" = Ok (PList series) ->
  forallb (listable "season_id") seasons = true ->
  forallb (listable "series_id") series = true ->
  get_channels self tr
  = (Ok (map (listed self SEASON "season_id") seasons
         ++ map (listed self SERIES "series_id") series), tr') /\
  length (map (listed self SEASON "season_id") seasons
          ++ map (listed self SERIES "series_id") series)
  = (length seasons + length series)%nat /\
  Forall (fun channel =>
            ChannelSeriesAny.owner channel
            = User.__init__ (User.uid self) (Some (User.credential self)))
         (map (listed self SEASON "season_id") seasons
          ++ map (listed self SERIES "series_id") series).
Proof.
  intros Hlist Hitems Hseasons Hseries Hs Hr.
  split; [|split].
  - unfold get_channels.
    erewrite bind_run by exact Hlist. cbv beta.
    erewrite bind_lift by exact Hitems. cbv beta.
    erewrite bind_lift by exact Hseasons. cbv beta.
    erewrite bind_lift by reflexivity. cbv beta.
    erewrite bind_run
      by (apply for_each_update_map; intros item Hin;
          apply channel_of_listable;
          rewrite forallb_forall in Hs; now apply Hs).
    cbv beta.
    erewrite bind_lift by exact Hitems. cbv beta.
    erewrite bind_lift by exact Hseries. cbv beta.
    erewrite bind_lift by reflexivity. cbv beta.
    erewrite bind_run
      by (apply for_each_update_map; intros item Hin;
          apply channel_of_listable;
          rewrite forallb_forall in Hr; now apply Hr).
    reflexivity.
  - now rewrite length_app, !length_map.
  - apply Forall_app. split; apply Forall_forall; intros channel Hin;
      apply in_map_iff in Hin; destruct Hin as (item & <- & _); reflexivity.
Qed.

End Channels.

Section Writes.
Context `{Externals}.

Lemma quiet_of_silent {A} (m : M A) : silent m -> quiet m.
Proof.
  intros Hm tr. exists []. rewrite app_nil_r. split; [apply Hm|reflexivity].
Qed.

Lemma quiet_bind {A B} (m : M A) (k : A -> M B) :
  quiet m -> (forall a, quiet (k a)) -> quiet (bind m k).
Proof.
  intros Hm Hk tr. unfold bind.
  destruct (Hm tr) as (evs & Htr & Hevs).
  destruct (m tr) as [[a|e] tr1]; simpl in Htr; subst tr1.
  - destruct (Hk a (tr ++ evs)) as (evs' & Htr' & Hevs').
    exists (evs ++ evs'). rewrite Htr', app_assoc. split; [reflexivity|].
    unfold no_post in *. now rewrite filter_app, Hevs, Hevs'.
  - exists evs. now split.
Qed.

Lemma quiet_get (url : string) (params data : option dict)
    (credential : option Credential.t) :
  quiet (request "GET" url params data credential).
Proof.
  intros tr. eexists. rewrite request_run. split; reflexivity.
Qed.

Lemma quiet_httpx_get (url : string) (params : dict) :
  quiet (httpx_get_text url params).
Proof.
  intros tr. eexists. unfold httpx_get_text. split; reflexivity.
Qed.

Lemma quiet_raise_for_no (tok : token) (c : Credential.t) :
  quiet (raise_for_no tok c).
Proof.
  apply quiet_of_silent. intros tr. unfold raise_for_no.
  destruct (Credential.has tok c); reflexivity.
Qed.

Ltac quiet_steps :=
  repeat first
    [ apply quiet_raise_for_no
    | apply quiet_get
    | apply quiet_httpx_get
    | apply quiet_of_silent; first [apply silent_ret | apply silent_raise
                                   | apply silent_lift]
    | apply quiet_bind; [|intros] ].

Lemma quiet_get_self_info (c : Credential.t) : quiet (get_self_info c).
Proof.
  unfold get_self_info, raise_for_no_sessdata. quiet_steps.
Qed.

Lemma quiet_series_init (uid : Z) (type_ : option ChannelSeriesType)
    (id_ : Z) (credential : option Credential.t) (meta : pyval) :
  quiet (ChannelSeries.__init__ uid type_ id_ credential meta).
Proof.
  unfold ChannelSeries.__init__.
  apply quiet_bind.
  { apply quiet_of_silent. intros tr. unfold py_assert.
    destruct (negb (id_ =? -1)); reflexivity. }
  intros _. apply quiet_bind.
  { destruct type_; quiet_steps. }
  intros ty. destruct meta; quiet_steps.
  destruct ty; simpl; quiet_steps.
Qed.

Lemma quiet_collect_aids (self_uid : pyval) (series_id : Z)
    (credential : Credential.t) (pages : list Z) :
  forall aids, quiet (collect_aids self_uid series_id credential pages aids).
Proof.
  induction pages as [|page pages IH]; intros aids; simpl.
  - quiet_steps.
  - unfold User.get_channel_videos_series. quiet_steps. apply IH.
Qed.

Lemma post_last_post (url : string) (params data : option dict)
    (credential : option Credential.t) :
  post_last (request "POST" url params data credential).
Proof.
  intros tr. eexists. rewrite request_run. split; [reflexivity|].
  right. exists [], (mkRequest "POST" url params data credential).
  rewrite app_nil_r. repeat split.
Qed.

Lemma post_last_bind {A} (m : M A) (k : A -> M pyval) :
  quiet m -> (forall a, post_last (k a)) -> post_last (bind m k).
Proof.
  intros Hm Hk tr. unfold bind.
  destruct (Hm tr) as (evs & Htr & Hevs).
  destruct (m tr) as [[a|e] tr1]; simpl in Htr; subst tr1.
  - destruct (Hk a (tr ++ evs)) as (evs' & Htr' & Hcase).
    exists (evs ++ evs'). rewrite Htr', app_assoc. split; [reflexivity|].
    destruct Hcase as [[Hno Hraised] | (pre & r & -> & Hpre & Hpost & Hout)].
    + left. split; [|exact Hraised].
      unfold no_post in *. now rewrite filter_app, Hevs, Hno.
    + right. exists (evs ++ pre), r.
      split; [now rewrite app_assoc|].
      split; [unfold no_post in *; now rewrite filter_app, Hevs, Hpre|].
      split; [exact Hpost|].
      rewrite app_assoc. exact Hout.
  - exists evs. split; [reflexivity|]. left. split; [exact Hevs|].
    now exists e.
Qed.

Ltac post_last_steps :=
  repeat first
    [ apply post_last_post
    | apply post_last_bind;
      [ first [ apply quiet_get_self_info
              | apply quiet_series_init
              | apply quiet_collect_aids
              | quiet_steps ]
      | intros ] ].

(** X19.  The four writes on legacy collections ask the gateway who is
    logged in (and [del_channel_series] also walks the pages) before they
    submit.  In every run, whatever the remote side answers, they submit at
    most once, the submission is the last thing they do and its outcome is
    the outcome of the call; when anything before it fails, the call raises
    and nothing has been submitted. *)
Theorem series_writes_submit_last_or_not_at_all :
  (forall name aids keywords description credential,
      post_last (create_channel_series name aids keywords description
                   credential)) /\
  (forall series_id credential,
      post_last (del_channel_series series_id credential)) /\
  (forall series_id aids credential,
      post_last (add_aids_to_series series_id aids credential)) /\
  (forall series_id aids credential,
      post_last (del_aids_from_series series_id aids credential)).
Proof.
  repeat split; intros.
  - unfold create_channel_series, raise_for_no_sessdata, raise_for_no_bili_jct.
    post_last_steps.
  - unfold del_channel_series, raise_for_no_sessdata, raise_for_no_bili_jct.
    post_last_steps.
  - unfold add_aids_to_series, raise_for_no_sessdata, raise_for_no_bili_jct.
    post_last_steps.
  - unfold del_aids_from_series, raise_for_no_sessdata, raise_for_no_bili_jct.
    post_last_steps.
Qed.

End Writes.

Section MoreWrites.
Context `{Externals}.

Lemma self_info_run (c : Credential.t) (tr : trace) (info : pyval) :
  Credential.has_sessdata c = true ->
  request_oracle tr (self_info_request c) = inr info ->
  get_self_info c tr = (Ok info, tr ++ [EvRequest (self_info_request c)]).
Proof.
  intros Hs Hreq. unfold get_self_info, raise_for_no_sessdata.
  rewrite raise_for_no_present by exact Hs.
  rewrite request_run. fold (self_info_request c). now rewrite Hreq.
Qed.

(** X20.  [add_aids_to_series] and [del_aids_from_series], with both tokens
    present: the ["mid"] they submit is the one the gateway reports for the
    logged-in user, and the aids travel as one comma-joined string.  When the
    self info has no ["mid"], the call raises [KeyError] after that one
    request. *)
Theorem series_member_writes_use_reported_mid
    (series_id : Z) (aids : list pyval) (c : Credential.t) (tr : trace)
    (info : pyval) :
  Credential.has_sessdata c = true ->
  Credential.has_bili_jct c = true ->
  request_oracle tr (self_info_request c) = inr info ->
  let asked := tr ++ [EvRequest (self_info_request c)] in
  (forall mid, py_getitem info "mid" = Ok mid ->
     let add := aids_request "add_channel_aids_series" mid series_id c aids in
     let del := aids_request "del_channel_aids_series" mid series_id c aids in
     add_aids_to_series series_id aids c tr
     = (answer (request_oracle asked add), asked ++ [EvRequest add]) /\
     del_aids_from_series series_id aids c tr
     = (answer (request_oracle asked del), asked ++ [EvRequest del])) /\
  (forall d, info = PDict d -> dict_get d "mid" = None ->
     add_aids_to_series series_id aids c tr = (Raise (KeyError "mid"), asked) /\
     del_aids_from_series series_id aids c tr = (Raise (KeyError "mid"), asked)).
Proof.
  intros Hs Hb Hreq asked.
  unfold add_aids_to_series, del_aids_from_series,
    raise_for_no_sessdata, raise_for_no_bili_jct.
  rewrite !raise_for_no_present by assumption.
  rewrite !(bind_run _ _ _ _ _ (self_info_run c tr info Hs Hreq)).
  fold asked. split.
  - intros mid Hmid. cbv zeta.
    rewrite !(bind_lift _ _ _ _ Hmid). now rewrite !request_run.
  - intros d -> Hnone. unfold bind, lift, py_getitem. now rewrite Hnone.
Qed.

(** X21.  Deleting an empty legacy collection: when the metadata reports a
    total of 0 (or less), no page is requested and the deletion is submitted
    at once, with the empty string as its aid list. *)
Theorem del_channel_series_of_empty_collection
    (series_id : Z) (credential : Credential.t) (tr : trace)
    (text : string) (doc resp meta mid info self_uid : pyval) (total : Z) :
  let fetched := tr ++ [series_info_fetch series_id] in
  let known := fetched ++ [EvRequest (self_info_request credential)] in
  let deletion := deletion_request self_uid series_id credential [] in
  Credential.has_sessdata credential = true ->
  Credential.has_bili_jct credential = true ->
  series_id <> -1 ->
  httpx_get_oracle tr (get_api "user" "channel_series" "info")
    [("series_id", PInt series_id)] = inr text ->
  json_loads text = Some doc ->
  py_getitem doc "data" = Ok resp ->
  py_getitem resp "meta" = Ok meta ->
  py_getitem meta "mid" = Ok mid ->
  py_getitem meta "total" = Ok (PInt total) ->
  total <= 0 ->
  request_oracle fetched (self_info_request credential) = inr info ->
  py_getitem info "mid" = Ok self_uid ->
  del_channel_series series_id credential tr
  = (answer (request_oracle known deletion), known ++ [EvRequest deletion]) /\
  req_data deletion
  = Some [("mid", self_uid); ("series_id", PInt series_id);
          ("aids", PStr EmptyString)].
Proof.
  intros fetched known deletion
         Hs Hb Hid Hweb Hdoc Hdata Hmeta Hmid Htotal Hle Hinfo Huid.
  split; [|reflexivity].
  assert (Hpages : py_range 1 (page_count total + 1) = []).
  { unfold py_range. pose proof (page_count_ceiling total) as Hc.
    replace (Z.to_nat (page_count total + 1 - 1)) with 0%nat by lia.
    reflexivity. }
  unfold del_channel_series, raise_for_no_sessdata, raise_for_no_bili_jct.
  rewrite !raise_for_no_present by assumption.
  erewrite bind_run by (eapply series_init_run; eassumption).
  cbv beta. simpl ChannelSeries.get_meta.
  erewrite bind_lift by exact Htotal. cbv beta.
  fold fetched.
  rewrite (bind_run _ _ _ _ _ (self_info_run credential fetched info Hs Hinfo)).
  fold known.
  erewrite bind_lift by exact Huid. cbv beta.
  simpl py_index. erewrite bind_lift by reflexivity. cbv beta.
  rewrite Hpages. simpl collect_aids.
  erewrite bind_run by reflexivity. cbv beta.
  now rewrite request_run.
Qed.

End MoreWrites.

Section Compositions.
Context `{Externals}.

(** X22.  A total that is no integer.  When the metadata gives the total as
    anything but an [int] or a [bool] (a string, [None], a float),
    [del_channel_series] raises [TypeError] right after it has asked who is
    logged in: no page is requested and nothing is submitted. *)
Theorem del_channel_series_needs_an_integer_total
    (series_id : Z) (credential : Credential.t) (tr : trace)
    (text : string) (doc resp meta mid info self_uid total : pyval) :
  let fetched := tr ++ [series_info_fetch series_id] in
  Credential.has_sessdata credential = true ->
  Credential.has_bili_jct credential = true ->
  series_id <> -1 ->
  httpx_get_oracle tr (get_api "user" "channel_series" "info")
    [("series_id", PInt series_id)] = inr text ->
  json_loads text = Some doc ->
  py_getitem doc "data" = Ok resp ->
  py_getitem resp "meta" = Ok meta ->
  py_getitem meta "mid" = Ok mid ->
  py_getitem meta "total" = Ok total ->
  py_index total = None ->
  request_oracle fetched (self_info_request credential) = inr info ->
  py_getitem info "mid" = Ok self_uid ->
  del_channel_series series_id credential tr
  = (Raise TypeError, fetched ++ [EvRequest (self_info_request credential)]).
Proof.
  intros fetched Hs Hb Hid Hweb Hdoc Hdata Hmeta Hmid Htotal Hindex Hinfo Huid.
  unfold del_channel_series, raise_for_no_sessdata, raise_for_no_bili_jct.
  rewrite !raise_for_no_present by assumption.
  erewrite bind_run by (eapply series_init_run; eassumption).
  cbv beta. simpl ChannelSeries.get_meta.
  erewrite bind_lift by exact Htotal. cbv beta.
  fold fetched.
  rewrite (bind_run _ _ _ _ _ (self_info_run credential fetched info Hs Hinfo)).
  erewrite bind_lift by exact Huid. cbv beta.
  rewrite Hindex. reflexivity.
Qed.

(** X23.  [name2uid] joins a list of names with commas and sends the result
    like a single name, without credential; so two lists with the same join
    (a name that contains a comma, or that name split at the comma) make the
    same call, and the empty list asks for the empty name. *)
Theorem name2uid_joins_names (tr : trace) :
  (forall names,
      name2uid (inr names) tr = name2uid (inl (String.concat "," names)) tr) /\
  (forall names1 names2,
      String.concat "," names1 = String.concat "," names2 ->
      name2uid (inr names1) tr = name2uid (inr names2) tr) /\
  snd (name2uid (inr []) tr)
  = tr ++ [EvRequest (mkRequest "GET" (get_api "user" "info" "name_to_uid")
                        (Some [("names", PStr EmptyString)]) None None)].
Proof.
  unfold name2uid. repeat split.
  intros names1 names2 Hjoin. now rewrite Hjoin.
Qed.

(** X24.  Building a legacy collection from its id and then asking for its
    videos: the page is requested from the owner found in the metadata, not
    from the uid that was passed in, with the credential given (or
    [Credential()] when there is none). *)
Theorem videos_are_asked_from_resolved_owner
    (uid id_ : Z) (credential : option Credential.t) (tr : trace)
    (text : string) (doc resp meta mid : pyval)
    (sort : ChannelOrder) (pn ps : Z) :
  let r := mkRequest "GET" (get_api "user" "info" "channel_video_series")
             (Some [("mid", mid); ("series_id", PInt id_);
                    ("pn", PInt pn); ("ps", PInt ps)])
             None (Some (or_new credential)) in
  id_ <> -1 ->
  httpx_get_oracle tr (get_api "user" "channel_series" "info")
    [("series_id", PInt id_)] = inr text ->
  json_loads text = Some doc ->
  py_getitem doc "data" = Ok resp ->
  py_getitem resp "meta" = Ok meta ->
  py_getitem meta "mid" = Ok mid ->
  (series <- ChannelSeries.__init__ uid (Some SERIES) id_ credential PNone ;;
   ChannelSeries.get_videos series sort pn ps) tr
  = (answer (request_oracle (tr ++ [series_info_fetch id_]) r),
     tr ++ [series_info_fetch id_; EvRequest r]).
Proof.
  intros r Hid Hweb Hdoc Hdata Hmeta Hmid.
  erewrite bind_run by (eapply series_init_run; eassumption).
  unfold ChannelSeries.get_videos, User.get_channel_videos_series. simpl.
  rewrite request_run. rewrite <- app_assoc.
  destruct credential; reflexivity.
Qed.

End Compositions.

(** ** More runs against the scripted services *)

Section MoreRuns.
Import Remote.

#[local] Existing Instance Remote.env.

(** X1, an instance: [get_self_coins] with a session token and nothing
    else. *)
Lemma coins_need_the_user_id_token :
  let c := Credential.mk (Some "sess") None None in
  asserts_hold GetSelfCoins = true /\
  first_missing c (needs GetSelfCoins) = Some DEDEUSERID /\
  call GetSelfCoins c [] = (Raise (CredentialNoTokenException DEDEUSERID), []).
Proof.
  intros c. split; [reflexivity|]. split; [reflexivity|].
  apply (first_missing_token_is_reported GetSelfCoins c DEDEUSERID);
    reflexivity.
Defined.

(** X2, an instance: a credential with the cross-site token only. *)
Lemma up_stat_without_session_token :
  let self := User.__init__ (PInt 1) (Some (Credential.mk None (Some "csrf") None)) in
  Credential.has_sessdata (User.credential self) = false /\
  Credential.has_bili_jct (User.credential self) = true /\
  gateway_calls (snd (User.get_up_stat self [])) = 1%nat /\
  Credential.has_bili_jct Credential.new = false /\
  User.get_up_stat (User.__init__ (PInt 1) None) []
  = (Raise (CredentialNoTokenException BILI_JCT), []).
Proof.
  intros self. split; [reflexivity|]. split; [reflexivity|]. split.
  - destruct (get_up_stat_checks_only_bili_jct self []) as [_ Hrun].
    rewrite Hrun by reflexivity. reflexivity.
  - split; [reflexivity|].
    destruct (get_up_stat_checks_only_bili_jct (User.__init__ (PInt 1) None) [])
      as [Hstop _].
    apply Hstop. reflexivity.
Defined.

(** X3, an instance: the courses of user 1, asked for with a full
    credential. *)
Lemma cheese_is_read_without_credential :
  sends_uid GetCheese = true /\
  exists r params,
    read GetCheese (user 1) [] = (answer (request_oracle [] r), [EvRequest r]) /\
    req_params r = Some params /\
    req_credential r = None /\
    In (PInt 1) (map snd params).
Proof.
  split; [reflexivity|].
  destruct (public_reads_make_one_request GetCheese (user 1) [])
    as (r & params & Hrun & _ & _ & Hparams & Hcred & Huid).
  exists r, params.
  split; [exact Hrun|split; [exact Hparams|split; [exact Hcred|]]].
  apply Huid. reflexivity.
Defined.

(** X4, an instance: the followers ranking since the moment 5. *)
Lemma top_followers_since_5 :
  5 <> 0 /\
  exists r,
    snd (UserReads.top_followers (user 1) (Some 5) []) = [EvRequest r] /\
    req_params r = Some [("t", PInt 5)].
Proof.
  split; [lia|].
  destruct (top_followers_since_and_uid (user 1) []) as (_ & _ & Ht & _).
  eexists. split; [apply Ht; lia|reflexivity].
Defined.

(** X9, an instance: the modern collection 6 belongs to user 9. *)
Lemma season_6_belongs_to_user_9 :
  6 <> -1 /\
  httpx_get_oracle [] (get_api "user" "channel_series" "season_info")
    [("season_id", PInt 6)] = inr season_text /\
  json_loads season_text
  = Some (PDict [("data", PDict [("info", PDict [("season_id", PInt 6)]);
                                 ("upper", PDict [("mid", PInt 9)])])]) /\
  exists series,
    ChannelSeries.__init__ 7 (Some SEASON) 6 None PNone []
    = (Ok series, [season_info_fetch 6]) /\
    ChannelSeries.owner series = User.__init__ (PInt 9) None /\
    ChannelSeries.get_meta series
    = PDict [("season_id", PInt 6); ("mid", PInt 9)].
Proof.
  split; [lia|]. split; [reflexivity|]. split; [reflexivity|].
  destruct (season_owner_is_upper_mid 7 6 None [] season_text
              (PDict [("data", PDict [("info", PDict [("season_id", PInt 6)]);
                                      ("upper", PDict [("mid", PInt 9)])])])
              (PDict [("info", PDict [("season_id", PInt 6)]);
                      ("upper", PDict [("mid", PInt 9)])])
              (PDict [("mid", PInt 9)]) (PInt 9) [("season_id", PInt 6)])
    as (series & Hrun & Howner & Hmeta & _); [lia|reflexivity..|].
  exists series. split; [exact Hrun|]. split; [exact Howner|exact Hmeta].
Defined.

(** X10, an instance: a legacy collection built from a snapshot whose
    ["mid"] differs from the uid given. *)
Lemma snapshot_is_trusted :
  let meta := PDict [("series_id", PInt 5); ("mid", PInt 99)] in
  meta <> PNone /\ 5 <> -1 /\ Some SERIES <> None /\
  ChannelSeries.__init__ 7 (Some SERIES) 5 None meta []
  = (Ok (ChannelSeries.mk (PInt 7) 0 5 (User.__init__ (PInt 7) None) None meta),
     []).
Proof.
  intros meta.
  assert (H1 : meta <> PNone) by discriminate.
  assert (H2 : 5 <> -1) by lia.
  assert (H3 : Some SERIES <> None) by discriminate.
  split; [exact H1|]. split; [exact H2|]. split; [exact H3|].
  destruct (constructor_fetches_at_most_once 7 (Some SERIES) 5 None meta [])
    as (Hsnap & _ & _).
  destruct (Hsnap H1 H2 H3) as (ty & Hty & Hrun).
  injection Hty as <-. exact Hrun.
Defined.

(** X20, an instance: two videos added to, and removed from, collection 5. *)
Lemma members_of_series_5 :
  let asked := [EvRequest (self_info_request login)] in
  let aids := [PInt 11; PInt 12] in
  Credential.has_sessdata login = true /\
  Credential.has_bili_jct login = true /\
  request_oracle [] (self_info_request login) = inr (PDict [("mid", PInt 7)]) /\
  add_aids_to_series 5 aids login []
  = (Ok (PDict []),
     asked ++ [EvRequest (aids_request "add_channel_aids_series" (PInt 7) 5
                            login aids)]) /\
  req_data (aids_request "add_channel_aids_series" (PInt 7) 5 login aids)
  = Some [("mid", PInt 7); ("series_id", PInt 5); ("aids", PStr "11,12")].
Proof.
  intros asked aids.
  split; [reflexivity|]. split; [reflexivity|]. split; [reflexivity|].
  split; [|reflexivity].
  destruct (series_member_writes_use_reported_mid 5 aids login []
              (PDict [("mid", PInt 7)])) as (Hmid & _);
    [reflexivity..|].
  destruct (Hmid (PInt 7)) as (Hadd & _); [reflexivity|].
  exact Hadd.
Defined.

(** X24, an instance: collection 5, built with the uid 1, is read from its
    owner 7. *)
Lemma videos_of_series_5 :
  5 <> -1 /\
  httpx_get_oracle [] (get_api "user" "channel_series" "info")
    [("series_id", PInt 5)] = inr series_text /\
  exists r params,
    snd ((series <- ChannelSeries.__init__ 1 (Some SERIES) 5 None PNone ;;
          ChannelSeries.get_videos series DEFAULT 1 100) [])
    = [series_info_fetch 5; EvRequest r] /\
    req_params r = Some params /\
    dict_get params "mid" = Some (PInt 7) /\
    req_credential r = Some Credential.new.
Proof.
  split; [lia|]. split; [reflexivity|].
  pose proof (videos_are_asked_from_resolved_owner 1 5 None [] series_text
                (PDict [("data", PDict [("meta",
                   PDict [("series_id", PInt 5); ("mid", PInt 7);
                          ("total", PInt 41)])])])
                (PDict [("meta",
                   PDict [("series_id", PInt 5); ("mid", PInt 7);
                          ("total", PInt 41)])])
                (PDict [("series_id", PInt 5); ("mid", PInt 7);
                        ("total", PInt 41)])
                (PInt 7) DEFAULT 1 100) as Hrun.
  cbv zeta in Hrun.
  do 2 eexists. split.
  - rewrite Hrun; [reflexivity|lia|reflexivity..].
  - repeat split.
Defined.

(** X23, an instance: two lists of names with the same join. *)
Lemma names_with_a_comma :
  String.concat "," ["x,y"; "z"] = String.concat "," ["x"; "y,z"] /\
  name2uid (inr ["x,y"; "z"]) [] = name2uid (inr ["x"; "y,z"]) [].
Proof.
  split; [reflexivity|].
  destruct (name2uid_joins_names []) as (_ & Hsame & _).
  apply Hsame. reflexivity.
Defined.

End MoreRuns.

Section StudioRuns.
Import Remote.

#[local] Existing Instance Studio.env.
#[local] Existing Instance Studio.session.
#[local] Existing Instance Studio.limits.

(** X5, an instance: user 7 asks twice who is logged in; and a user with a
    filled cache and no token at all. *)
Lemma self_info_of_user_7_is_fetched_once :
  let self := user 7 in
  let info := PDict [("mid", PInt 7)] in
  let cached := User.mk (PInt 7) Credential.new (PStr "cached") in
  User.self_info cached <> PNone /\
  UserReads.__get_self_info cached [] = (Ok (PStr "cached", cached), []) /\
  User.self_info self = PNone /\
  Credential.has_sessdata (User.credential self) = true /\
  request_oracle [EvSleep 0] (self_info_request login) = inr info /\
  info <> PNone /\
  exists self',
    UserReads.__get_self_info self [EvSleep 0]
    = (Ok (info, self'), [EvSleep 0; EvRequest (self_info_request login)]) /\
    forall tr', UserReads.__get_self_info self' tr' = (Ok (info, self'), tr').
Proof.
  intros self info cached.
  assert (Hc : User.self_info cached <> PNone) by discriminate.
  assert (Hi : info <> PNone) by discriminate.
  split; [exact Hc|]. split.
  { exact (proj1 (self_info_is_fetched_once cached [] PNone) Hc). }
  split; [reflexivity|]. split; [reflexivity|]. split; [reflexivity|].
  split; [exact Hi|].
  destruct (self_info_is_fetched_once self [EvSleep 0] info) as [_ Hfetch].
  destruct Hfetch as (self' & Hrun & _ & _ & Hhit);
    [reflexivity|reflexivity|reflexivity|exact Hi|].
  exists self'. split; [exact Hrun|exact Hhit].
Defined.

(** X6, an instance: the first answer of the service is [None]. *)
Lemma self_info_none_is_fetched_again :
  let self := user 7 in
  User.self_info self = PNone /\
  Credential.has_sessdata (User.credential self) = true /\
  request_oracle [] (self_info_request login) = inr PNone /\
  exists self',
    UserReads.__get_self_info self []
    = (Ok (PNone, self'), [EvRequest (self_info_request login)]) /\
    gateway_calls (snd (UserReads.__get_self_info self'
                          [EvRequest (self_info_request login)])) = 2%nat.
Proof.
  intros self.
  split; [reflexivity|]. split; [reflexivity|]. split; [reflexivity|].
  destruct (self_info_none_is_not_cached self [])
    as (self' & Hrun & Hagain); [reflexivity..|].
  exists self'. split; [exact Hrun|].
  rewrite Hagain. reflexivity.
Defined.

(** X7, an instance: the tag page of user 2 is an HTML error page, the one
    of user 4 a number too long for the decoder. *)
Lemma fav_tag_of_users_2_and_4 :
  session_oracle [] "GET" (get_api "user" "info" "user_tag")
    [("mid", PInt 2)] (fav_tag_cookies (user 2)) true
  = inr ("<html>", 404) /\
  UserReads.loads_text "<html>" = Raise (JSONDecodeError "<html>") /\
  session_oracle [] "GET" (get_api "user" "info" "user_tag")
    [("mid", PInt 4)] (fav_tag_cookies (user 4)) true
  = inr (Studio.long_number, 200) /\
  UserReads.loads_text Studio.long_number = Raise (OtherException "ValueError") /\
  is_JSONDecodeError (OtherException "ValueError") = false /\
  UserReads.get_user_fav_tag (user 2) []
  = (Ok (UserReads.undecoded 404), [fav_tag_fetch (user 2)]) /\
  UserReads.get_user_fav_tag (user 4) []
  = (Raise (OtherException "ValueError"), [fav_tag_fetch (user 4)]).
Proof.
  assert (H4 : UserReads.loads_text Studio.long_number
               = Raise (OtherException "ValueError"))
    by (vm_compute; reflexivity).
  split; [reflexivity|]. split; [reflexivity|]. split; [reflexivity|].
  split; [exact H4|]. split; [reflexivity|]. split.
  - destruct (get_user_fav_tag_converts_decode_errors_only (user 2) []
                "<html>" 404) as (Htr & _ & Hundecoded & _); [reflexivity|].
    specialize (Hundecoded "<html>" eq_refl).
    destruct (UserReads.get_user_fav_tag (user 2) []) as [out tr'].
    simpl in Htr, Hundecoded. now subst.
  - destruct (get_user_fav_tag_converts_decode_errors_only (user 4) []
                Studio.long_number 200) as (Htr & _ & _ & Hother & _);
      [reflexivity|].
    specialize (Hother _ H4 eq_refl).
    destruct (UserReads.get_user_fav_tag (user 4) []) as [out tr'].
    simpl in Htr, Hother. now subst.
Defined.

(** X8, an instance: the followings page of user 2 is the same HTML. *)
Lemma followings_of_user_2 :
  session_oracle [] "GET" (get_api "user" "info" "all_followings")
    [("mid", PInt 2)] (get_cookies (User.credential (user 2))) false
  = inr ("<html>", 404) /\
  json_loads "<html>" = None /\
  UserReads.get_all_followings (user 2) []
  = (Raise (JSONDecodeError "<html>"), [followings_fetch (user 2)]).
Proof.
  split; [reflexivity|]. split; [reflexivity|].
  destruct (get_all_followings_outcomes (user 2) [] "<html>" 404)
    as (Hdecode & _); [reflexivity|].
  apply Hdecode. reflexivity.
Defined.

(** X11, an instance: the metadata page of collection 51 is HTML, the one of
    collection 52 cannot be reached. *)
Lemma broken_metadata_is_fatal :
  51 <> -1 /\ 52 <> -1 /\
  httpx_get_oracle [] (get_api "user" "channel_series" "info")
    [("series_id", PInt 51)] = inr "<html>" /\
  json_loads "<html>" = None /\
  httpx_get_oracle [] (get_api "user" "channel_series" "info")
    [("series_id", PInt 52)] = inl (OtherException "ConnectError") /\
  ChannelSeries.__init__ (-1) (Some SERIES) 51 None PNone []
  = (Raise (JSONDecodeError "<html>"), [series_info_fetch 51]) /\
  ChannelSeries.__init__ (-1) (Some SERIES) 52 None PNone []
  = (Raise (OtherException "ConnectError"), [series_info_fetch 52]).
Proof.
  assert (H1 : 51 <> -1) by lia. assert (H2 : 52 <> -1) by lia.
  split; [exact H1|]. split; [exact H2|].
  split; [reflexivity|]. split; [reflexivity|]. split; [reflexivity|].
  split.
  - destruct (constructor_fails_with_its_fetch (-1) SERIES 51 None [] H1)
      as (_ & Hdecode & _).
    apply (Hdecode "<html>"); reflexivity.
  - destruct (constructor_fails_with_its_fetch (-1) SERIES 52 None [] H2)
      as (Hraise & _).
    apply Hraise. reflexivity.
Defined.

(** X12, an instance: user 8 does not exist, and the listing of user 9 has no
    page information. *)
Lemma channel_list_of_users_8_and_9 :
  request_oracle [] (channel_list_request (user 8) (PInt 1))
  = inl (ResponseCodeException (-404) "no such user") /\
  request_oracle [] (channel_list_request (user 9) (PInt 1))
  = inr (PDict [("items_lists", PDict [])]) /\
  reported_total (PDict [("items_lists", PDict [])]) = Raise (KeyError "page") /\
  User.get_channel_list (user 8) []
  = (Raise (ResponseCodeException (-404) "no such user"),
     [EvRequest (channel_list_request (user 8) (PInt 1))]) /\
  User.get_channel_list (user 9) []
  = (Raise (KeyError "page"),
     [EvRequest (channel_list_request (user 9) (PInt 1))]).
Proof.
  split; [reflexivity|]. split; [reflexivity|]. split; [reflexivity|].
  split.
  - apply (get_channel_list_stops_after_failed_probe (user 8) []).
    left. reflexivity.
  - apply (get_channel_list_stops_after_failed_probe (user 9) []).
    right. eexists. split; reflexivity.
Defined.

(** X13, an instance: the listing of user 7 reports three collections. *)
Lemma channel_list_of_user_7 :
  request_oracle [] (channel_list_request (user 7) (PInt 1))
  = inr Studio.channel_data /\
  reported_total Studio.channel_data = Ok (PInt 3) /\
  snd (User.get_channel_list (user 7) [])
  = [EvRequest (channel_list_request (user 7) (PInt 1)); EvSleep 500;
     EvRequest (channel_list_request (user 7) (PInt 3))].
Proof.
  split; [reflexivity|]. split; [reflexivity|].
  destruct (get_channel_list_never_asks_for_zero (user 7) []
              Studio.channel_data (PInt 3))
    as (size & Hrun & _ & _ & Hsize); [reflexivity..|].
  rewrite Hrun. now rewrite (Hsize eq_refl).
Defined.

(** X14, an instance: nobody has posted anything. *)
Lemma dynamics_without_cards :
  request_oracle [] (dynamics_request (user 1) 0 false)
  = inr (PDict [("has_more", PInt 0)]) /\
  (dict_get [("has_more", PInt 0)] "cards" = None \/
   dict_get [("has_more", PInt 0)] "cards" = Some (PList [])) /\
  User.get_dynamics (user 1) 0 false []
  = (Ok (PDict [("has_more", PInt 0)]),
     [EvRequest (dynamics_request (user 1) 0 false)]).
Proof.
  split; [reflexivity|]. split; [now left|].
  apply (get_dynamics_passes_cardless_payload (user 1) 0 false []);
    [reflexivity|now left].
Defined.

(** X15, an instance: the feed of user 2 is [None]. *)
Lemma dynamics_of_none :
  request_oracle [] (dynamics_request (user 2) 0 false) = inr PNone /\
  User.get_dynamics (user 2) 0 false []
  = (Raise TypeError, [EvRequest (dynamics_request (user 2) 0 false)]).
Proof.
  split; [reflexivity|].
  destruct (get_dynamics_on_unusable_answer (user 2) 0 false [])
    as (_ & Hshape).
  apply (Hshape PNone); [reflexivity|exact I].
Defined.

(** X18, an instance: the three collections of user 7. *)
Lemma channels_of_user_7 :
  let tr' := [EvRequest (channel_list_request (user 7) (PInt 1)); EvSleep 500;
              EvRequest (channel_list_request (user 7) (PInt 3))] in
  let seasons := [Studio.season_item] in
  let series := [Studio.series_item 50; Studio.series_item 51] in
  User.get_channel_list (user 7) [] = (Ok Studio.channel_data, tr') /\
  forallb (listable "season_id") seasons = true /\
  forallb (listable "series_id") series = true /\
  exists first second third,
    get_channels (user 7) [] = (Ok [first; second; third], tr') /\
    ChannelSeriesAny.id_ first = PInt 60 /\
    ChannelSeriesAny.is_new first = 1 /\
    ChannelSeriesAny.id_ second = PInt 50 /\
    ChannelSeriesAny.id_ third = PInt 51 /\
    User.uid (ChannelSeriesAny.owner third) = PInt 7.
Proof.
  intros tr' seasons series.
  split; [reflexivity|]. split; [reflexivity|]. split; [reflexivity|].
  destruct (get_channels_lists_seasons_then_series (user 7) [] tr'
              Studio.channel_data
              (PDict [("page", PDict [("total", PInt 3)]);
                      ("seasons_list", PList seasons);
                      ("series_list", PList series)])
              seasons series) as (Hrun & _ & _); [reflexivity..|].
  do 3 eexists. split; [exact Hrun|]. repeat split.
Defined.

(** X21, an instance: deleting the empty collection 50. *)
Lemma deleting_the_empty_series_50 :
  let meta := PDict [("series_id", PInt 50); ("mid", PInt 7); ("total", PInt 0)] in
  let known := [series_info_fetch 50; EvRequest (self_info_request login)] in
  let deletion := deletion_request (PInt 7) 50 login [] in
  Credential.has_sessdata login = true /\
  Credential.has_bili_jct login = true /\
  50 <> -1 /\
  httpx_get_oracle [] (get_api "user" "channel_series" "info")
    [("series_id", PInt 50)] = inr Studio.empty_series_text /\
  json_loads Studio.empty_series_text
  = Some (PDict [("data", PDict [("meta", meta)])]) /\
  0 <= 0 /\
  request_oracle [series_info_fetch 50] (self_info_request login)
  = inr (PDict [("mid", PInt 7)]) /\
  del_channel_series 50 login [] = (Ok (PDict []), known ++ [EvRequest deletion]) /\
  req_data deletion
  = Some [("mid", PInt 7); ("series_id", PInt 50); ("aids", PStr EmptyString)].
Proof.
  intros meta known deletion.
  split; [reflexivity|]. split; [reflexivity|]. split; [lia|].
  split; [reflexivity|]. split; [reflexivity|]. split; [lia|].
  split; [reflexivity|].
  destruct (del_channel_series_of_empty_collection 50 login []
              Studio.empty_series_text
              (PDict [("data", PDict [("meta", meta)])])
              (PDict [("meta", meta)]) meta (PInt 7)
              (PDict [("mid", PInt 7)]) (PInt 7) 0)
    as (Hrun & Hdata);
    [reflexivity|reflexivity|lia|reflexivity..|lia|reflexivity|reflexivity|].
  split; [exact Hrun|exact Hdata].
Defined.

(** X22, an instance: the metadata of collection 53 has the total ["41"], a
    string. *)
Lemma deleting_series_53_fails :
  let meta := PDict [("mid", PInt 7); ("total", PStr "41")] in
  Credential.has_sessdata login = true /\
  Credential.has_bili_jct login = true /\
  53 <> -1 /\
  httpx_get_oracle [] (get_api "user" "channel_series" "info")
    [("series_id", PInt 53)] = inr Studio.text_total_series_text /\
  json_loads Studio.text_total_series_text
  = Some (PDict [("data", PDict [("meta", meta)])]) /\
  py_index (PStr "41") = None /\
  request_oracle [series_info_fetch 53] (self_info_request login)
  = inr (PDict [("mid", PInt 7)]) /\
  del_channel_series 53 login []
  = (Raise TypeError,
     [series_info_fetch 53; EvRequest (self_info_request login)]).
Proof.
  intros meta.
  split; [reflexivity|]. split; [reflexivity|]. split; [lia|].
  split; [reflexivity|]. split; [reflexivity|]. split; [reflexivity|].
  split; [reflexivity|].
  apply (del_channel_series_needs_an_integer_total 53 login []
           Studio.text_total_series_text
           (PDict [("data", PDict [("meta", meta)])])
           (PDict [("meta", meta)]) meta (PInt 7)
           (PDict [("mid", PInt 7)]) (PInt 7) (PStr "41"));
    first [lia | reflexivity].
Defined.

End StudioRuns.
